(** * net-server: the upload pipeline of [app/main.py]

    A shallow embedding of [create_upload_net], the single endpoint of the
    server: the file name is validated against a regular expression, the
    payload is written gzip-compressed under exclusive-create semantics,
    read back, decompressed and checked against the SHA-256 prefix that the
    file name carries.

    Conventions of the embedding.
    - A Python [str] is a [string]; its characters are the bytes of the
      UTF-8 encoding.  Every character the code inspects (the pattern, the
      slice [3:15]) is ASCII, so nothing depends on the encoding.
    - A Python [bytes] is a [list byte].
    - The directory [nn/] is a finite map from file names to file contents.
    - [re], [hashlib], [gzip] and [pathlib] are library code: the first two
      are modelled executably, [gzip] is a pair of functions the pipeline is
      parametrised by, the file operations act on the finite map.
    - What the operating system decides during a request (a failing open,
      write or read, the time gzip stamps the file with) is an input, the
      record [io_env].  Both handlers are [except Exception]: an exception
      that is no [Exception] ([asyncio.CancelledError] delivered at
      [await upload.read()], the one point where the coroutine is
      suspended) passes them and leaves the function.  Requests run one
      after the other; the directory [nn/] exists; [Path.unlink] does not
      fail on a file that is there. *)

From Stdlib Require Import ZArith Lia Ascii String List Bool.
From Stdlib.Strings Require Import Byte.
From stdpp Require Import base option gmap strings.

Open Scope Z_scope.

(** stdpp keeps [simpl] from unfolding string concatenation; the messages of
    the server are concatenations of literals, which should compute. *)
#[local] Arguments String.append !s1 s2 : simpl nomatch.

(** ** Python strings *)

Module PyStr.

(** [s[i:j]] for indices [0 <= i <= j]; Python clips a slice to the
    string, it never raises. *)
Definition slice (i j : nat) (s : string) : string :=
  String.substring i (j - i) s.

(** The line feed, written [\n] in Python. *)
Definition LF : ascii := Ascii.ascii_of_nat 10.

(** Truth value of an optional string in [if not net_file]: [None] and the
    empty string are false. *)
Definition truthy (o : option string) : bool :=
  match o with
  | None => false
  | Some EmptyString => false
  | Some (String _ _) => true
  end.

(** [s.startswith(p)]. *)
Fixpoint starts_with (p s : string) : bool :=
  match p, s with
  | EmptyString, _ => true
  | String a p', String b s' => Ascii.eqb a b && starts_with p' s'
  | String _ _, EmptyString => false
  end.

(** [needle in hay]. *)
Fixpoint contains (needle hay : string) : bool :=
  starts_with needle hay
  || match hay with
     | EmptyString => false
     | String _ hay' => contains needle hay'
     end.

(** [all(p(c) for c in s)]. *)
Fixpoint all_chars (p : ascii -> bool) (s : string) : bool :=
  match s with
  | EmptyString => true
  | String c s' => p c && all_chars p s'
  end.

(** A lowercase hexadecimal digit. *)
Definition is_lower_hex (c : ascii) : bool :=
  existsb (Ascii.eqb c) (list_ascii_of_string "0123456789abcdef").

End PyStr.

(** ** The fragment of Python's [re] the server uses *)

Module Re.

(** Syntax: the constructs that occur in [^nn-[0-9a-f]{12}\.nnue$]. *)
Inductive regex : Type :=
| Bol                                  (* ^ *)
| Eol                                  (* $ *)
| Chr (c : ascii)                      (* a literal, also an escaped one *)
| Ranges (rs : list (ascii * ascii))   (* [a-b...] *)
| Times (n : nat) (r : regex)          (* r{n} *)
| Cat (r1 r2 : regex).                 (* r1 r2 *)

Definition in_range (c : ascii) (r : ascii * ascii) : bool :=
  (Ascii.nat_of_ascii (fst r) <=? Ascii.nat_of_ascii c)%nat
  && (Ascii.nat_of_ascii c <=? Ascii.nat_of_ascii (snd r))%nat.

Definition in_ranges (rs : list (ascii * ascii)) (c : ascii) : bool :=
  existsb (in_range c) rs.

(** Without [re.MULTILINE], [$] matches at the end of the string and also
    just before a line feed that is the last character of the string. *)
Definition at_eol (s : string) : bool :=
  match s with
  | EmptyString => true
  | String c EmptyString => Ascii.eqb c PyStr.LF
  | _ => false
  end.

(** A matcher takes the flag "at position 0", the rest of the subject and
    the continuation that matches what follows. *)
Definition matcher : Type := bool -> string -> (bool -> string -> bool) -> bool.

Fixpoint times (n : nat) (m : matcher) : matcher :=
  fun start s k =>
    match n with
    | O => k start s
    | S n' => m start s (fun start' s' => times n' m start' s' k)
    end.

Fixpoint matches (r : regex) : matcher :=
  fun start s k =>
    match r with
    | Bol => start && k start s
    | Eol => at_eol s && k start s
    | Chr c =>
        match s with
        | String c' s' => Ascii.eqb c' c && k false s'
        | EmptyString => false
        end
    | Ranges rs =>
        match s with
        | String c' s' => in_ranges rs c' && k false s'
        | EmptyString => false
        end
    | Times n r' => times n (matches r') start s k
    | Cat r1 r2 => matches r1 start s (fun start' s' => matches r2 start' s' k)
    end.

(** [re.match(r, s) is not None]: the pattern has to match at position 0,
    it need not reach the end of [s]. *)
Definition re_match (r : regex) (s : string) : bool :=
  matches r true s (fun _ _ => true).

(** A literal word, character by character. *)
Fixpoint word (w : string) (rest : regex) : regex :=
  match w with
  | EmptyString => rest
  | String c w' => Cat (Chr c) (word w' rest)
  end.

End Re.

(** The pattern of line 34, [r"^nn-[0-9a-f]{12}\.nnue$"]. *)
Definition NET_PATTERN : Re.regex :=
  Re.Cat Re.Bol
    (Re.word "nn-"
       (Re.Cat (Re.Times 12 (Re.Ranges [("0", "9"); ("a", "f")]%char))
          (Re.word ".nnue" Re.Eol))).


(** ** SHA-256 (FIPS 180-4), as computed by [hashlib.sha256] *)

Module Sha256.

(** 32-bit words are integers in [[0, 2^32)]; additions wrap around. *)
Definition w32 (x : Z) : Z := x mod 4294967296.
Definition add32 (x y : Z) : Z := w32 (x + y).
Definition rotr (n x : Z) : Z :=
  Z.lor (Z.shiftr x n) (w32 (Z.shiftl x (32 - n))).
Definition not32 (x : Z) : Z := Z.lxor x 0xffffffff.

Definition Ch (x y z : Z) : Z := Z.lxor (Z.land x y) (Z.land (not32 x) z).
Definition Maj (x y z : Z) : Z :=
  Z.lxor (Z.lxor (Z.land x y) (Z.land x z)) (Z.land y z).
Definition Sigma0 (x : Z) : Z :=
  Z.lxor (Z.lxor (rotr 2 x) (rotr 13 x)) (rotr 22 x).
Definition Sigma1 (x : Z) : Z :=
  Z.lxor (Z.lxor (rotr 6 x) (rotr 11 x)) (rotr 25 x).
Definition sigma0 (x : Z) : Z :=
  Z.lxor (Z.lxor (rotr 7 x) (rotr 18 x)) (Z.shiftr x 3).
Definition sigma1 (x : Z) : Z :=
  Z.lxor (Z.lxor (rotr 17 x) (rotr 19 x)) (Z.shiftr x 10).

(** The round constants: the first thirty-two bits of the fractional parts
    of the cube roots of the first sixty-four primes (FIPS 180-4, 4.2.2). *)
Definition is_prime (n : nat) : bool :=
  forallb (fun d => negb (n mod d =? 0)%nat) (seq 2 (n - 2)).

Definition first_primes : list Z :=
  map Z.of_nat (List.filter is_prime (seq 2 310)).

(** The integer cube root, one bit after the other from the top. *)
Fixpoint cube_root (bits : nat) (x r : Z) : Z :=
  match bits with
  | O => r
  | S bits' =>
      let c := r + Z.shiftl 1 (Z.of_nat bits') in
      cube_root bits' x (if c * c * c <=? x then c else r)
  end.

Definition K : list Z :=
  map (fun p => w32 (cube_root 36 (Z.shiftl p 96) 0)) first_primes.

(** The eight working variables, also the running hash value. *)
Record state : Type := State {
  va : Z; vb : Z; vc : Z; vd : Z; ve : Z; vf : Z; vg : Z; vh : Z
}.

Definition H0 : state :=
  State 0x6a09e667 0xbb67ae85 0x3c6ef372 0xa54ff53a
        0x510e527f 0x9b05688c 0x1f83d9ab 0x5be0cd19.

(** Padding: a one bit, zero bits up to 56 modulo 64 bytes, then the
    length of the message in bits as a 64-bit big-endian integer. *)
Definition be_bytes (n : nat) (x : Z) : list Z :=
  map (fun i => Z.shiftr x (8 * Z.of_nat i) mod 256) (rev (seq 0 n)).

Definition pad (msg : list Z) : list Z :=
  let len := Z.of_nat (length msg) in
  msg ++ 0x80 :: repeat 0 (Z.to_nat ((55 - len) mod 64))
      ++ be_bytes 8 (8 * len).

Definition be32 (b0 b1 b2 b3 : Z) : Z :=
  Z.lor (Z.lor (Z.shiftl b0 24) (Z.shiftl b1 16)) (Z.lor (Z.shiftl b2 8) b3).

(** The first [n] big-endian words of a byte sequence. *)
Fixpoint words (n : nat) (bs : list Z) : list Z :=
  match n, bs with
  | S n', b0 :: b1 :: b2 :: b3 :: bs' => be32 b0 b1 b2 b3 :: words n' bs'
  | _, _ => []
  end.

(** Message schedule, kept newest first while it grows. *)
Fixpoint extend (n : nat) (r : list Z) : list Z :=
  match n with
  | O => r
  | S n' =>
      let w := add32 (add32 (sigma1 (nth 1 r 0)) (nth 6 r 0))
                     (add32 (sigma0 (nth 14 r 0)) (nth 15 r 0)) in
      extend n' (w :: r)
  end.

Definition schedule (block : list Z) : list Z :=
  rev (extend 48 (rev (words 16 block))).

Definition round (s : state) (kw : Z * Z) : state :=
  let '(State a b c d e f g h) := s in
  let t1 := add32 (add32 (add32 h (Sigma1 e)) (add32 (Ch e f g) (fst kw)))
                  (snd kw) in
  let t2 := add32 (Sigma0 a) (Maj a b c) in
  State (add32 t1 t2) a b c (add32 d t1) e f g.

Definition compress (s : state) (block : list Z) : state :=
  let '(State a b c d e f g h) :=
    fold_left round (combine K (schedule block)) s in
  State (add32 (va s) a) (add32 (vb s) b) (add32 (vc s) c) (add32 (vd s) d)
        (add32 (ve s) e) (add32 (vf s) f) (add32 (vg s) g) (add32 (vh s) h).

(** [n] blocks of 64 bytes, one after the other. *)
Fixpoint blocks (n : nat) (bs : list Z) (s : state) : state :=
  match n with
  | O => s
  | S n' => blocks n' (skipn 64 bs) (compress s (firstn 64 bs))
  end.

Definition digest (msg : list byte) : state :=
  let padded := pad (map (fun b => Z.of_N (Byte.to_N b)) msg) in
  blocks (length padded / 64)%nat padded H0.

(** Lowercase hexadecimal, as [hexdigest] prints it. *)
Definition hexdigit (d : Z) : ascii :=
  nth (Z.to_nat (d mod 16))
      (list_ascii_of_string "0123456789abcdef") "0"%char.

Definition hex32 (w : Z) (rest : string) : string :=
  String (hexdigit (Z.shiftr w 28)) (String (hexdigit (Z.shiftr w 24))
 (String (hexdigit (Z.shiftr w 20)) (String (hexdigit (Z.shiftr w 16))
 (String (hexdigit (Z.shiftr w 12)) (String (hexdigit (Z.shiftr w 8))
 (String (hexdigit (Z.shiftr w 4))  (String (hexdigit w) rest))))))).

Definition hexdigest (msg : list byte) : string :=
  let '(State a b c d e f g h) := digest msg in
  hex32 a (hex32 b (hex32 c (hex32 d
    (hex32 e (hex32 f (hex32 g (hex32 h ""))))))).

End Sha256.


(** ** The store directory and the I/O environment *)

(** The directory [nn/]: file name to file content. *)
Abbreviation store := (gmap string (list byte)).

(** The exception classes the handlers of [create_upload_net] tell apart:
    [except FileExistsError] comes before [except Exception], and neither
    catches a [BaseException] that is no [Exception]. *)
Inductive exn : Type :=
| FileExistsError
| FileNotFoundError
| OtherError             (* OSError, RuntimeError, EOFError, ... *)
| Interrupt.             (* asyncio.CancelledError, KeyboardInterrupt *)

(** [isinstance(e, Exception)]. *)
Definition is_Exception (e : exn) : bool :=
  match e with
  | Interrupt => false
  | _ => true
  end.

Inductive result (A : Type) : Type :=
| Ret (a : A)
| Raise (e : exn).
Arguments Ret {A} a.
Arguments Raise {A} e.

(** What the environment decides during one request.  The only source of
    [FileExistsError] is the exclusive create itself. *)
Record io_env : Type := IoEnv {
  gz_mtime : Z;                      (* the time gzip stamps the header with *)
  open_fault : bool;                 (* gzip.open raises, nothing is created *)
  write_fault : option (list byte);  (* reading the upload, writing or closing
                                        raises; the bytes left in the file *)
  read_fault : bool;                 (* read_bytes raises *)
  write_interrupt : option (list byte)
                                     (* await upload.read() is cancelled:
                                        the bytes the close leaves in the
                                        file *)
}.

Definition fault_free (env : io_env) : bool :=
  negb (open_fault env)
  && match write_fault env with None => true | Some _ => false end
  && negb (read_fault env)
  && match write_interrupt env with None => true | Some _ => false end.

(** [Path.unlink(missing_ok)]. *)
Definition unlink (missing_ok : bool) (fs : store) (path : string)
  : store * result unit :=
  match fs !! path with
  | Some _ => (delete path fs, Ret tt)
  | None => (fs, if missing_ok then Ret tt else Raise FileNotFoundError)
  end.

(** [Path.read_bytes()]. *)
Definition read_bytes (env : io_env) (fs : store) (path : string)
  : result (list byte) :=
  if read_fault env then Raise OtherError
  else match fs !! path with
       | Some content => Ret content
       | None => Raise FileNotFoundError
       end.

(** The responses of the endpoint.  FastAPI renders [HTTPException(status,
    detail)] as the status with the body [{"detail": detail}], the same
    shape as the [JSONResponse] of the success path.  [Unhandled] is an
    exception that leaves the function. *)
Inductive response : Type :=
| JSONResponse (status_code : Z) (detail : string)
| HTTPException (status_code : Z) (detail : string)
| Unhandled (e : exn).

(** [nn_dir / f"{net_file}.gz"], relative to [nn/]. *)
Definition net_path (net_file : string) : string := net_file +:+ ".gz".

Section Pipeline.

(** [gzip]: what [gzip.open(path, "xb")] followed by one [write] and the
    close leaves in the file (it depends on the name and the time put in
    the header), and [gzip.decompress], [None] when it raises. *)
Variable gzip_file : string -> Z -> list byte -> list byte.
Variable gzip_decompress : list byte -> option (list byte).

(** Lines 51-52: [with gzip.open(net_file_gz, "xb") as f:
    f.write(await upload.read())]. *)
Definition gzip_open_xb_write (env : io_env) (fs : store) (path : string)
    (data : list byte) : store * result unit :=
  if open_fault env then (fs, Raise OtherError)
  else match fs !! path with
       | Some _ => (fs, Raise FileExistsError)
       | None =>
           match write_interrupt env with
           | Some closed => (<[path := closed]> fs, Raise Interrupt)
           | None =>
               match write_fault env with
               | Some partial => (<[path := partial]> fs, Raise OtherError)
               | None =>
                   (<[path := gzip_file path (gz_mtime env) data]> fs, Ret tt)
               end
           end
       end.

(** Line 70: [gzip.decompress(net_file_gz.read_bytes())]. *)
Definition read_decompress (env : io_env) (fs : store) (path : string)
  : result (list byte) :=
  match read_bytes env fs path with
  | Raise e => Raise e
  | Ret content =>
      match gzip_decompress content with
      | Some net_data => Ret net_data
      | None => Raise OtherError
      end
  end.

(** A handler that unlinks the file and then raises [HTTPException]. *)
Definition unlink_then (missing_ok : bool) (fs : store) (path : string)
    (r : response) : store * response :=
  match unlink missing_ok fs path with
  | (fs', Ret _) => (fs', r)
  | (fs', Raise e) => (fs', Unhandled e)
  end.

Definition create_upload_net (env : io_env) (fs : store)
    (filename : option string) (data : list byte) : store * response :=
  let net_file := default "" filename in
  if negb (PyStr.truthy filename) then
    (fs, HTTPException 400 "No filename provided in the upload")
  else if negb (Re.re_match NET_PATTERN net_file) then
    (fs, HTTPException 400
           ("Filename " +:+ net_file +:+ " does not match expected pattern "
            +:+ "(nn-[0-9a-f]{12}.nnue)"))
  else
    let net_file_gz := net_path net_file in
    match gzip_open_xb_write env fs net_file_gz data with
    | (fs1, Raise FileExistsError) =>
        (fs1, HTTPException 409 ("File " +:+ net_file +:+ " already uploaded"))
    | (fs1, Raise e) =>
        if is_Exception e then
          unlink_then true fs1 net_file_gz
            (HTTPException 500 ("Failed to write file " +:+ net_file))
        else (fs1, Unhandled e)
    | (fs1, Ret _) =>
        match read_decompress env fs1 net_file_gz with
        | Raise e =>
            if is_Exception e then
              unlink_then false fs1 net_file_gz
                (HTTPException 500
                   ("Failed to read uploaded file " +:+ net_file))
            else (fs1, Unhandled e)
        | Ret net_data =>
            let net_hash := PyStr.slice 0 12 (Sha256.hexdigest net_data) in
            if negb (String.eqb net_hash (PyStr.slice 3 15 net_file)) then
              unlink_then false fs1 net_file_gz
                (HTTPException 500
                   ("Invalid hash for uploaded file " +:+ net_file))
            else
              (fs1, JSONResponse 201 "File uploaded successfully")
        end
    end.

End Pipeline.

(** ** The outcomes of the specification, as responses *)

Inductive outcome : Type :=
| Committed
| MissingFilename
| InvalidNamePattern
| AlreadyExists
| WriteFailure
| ReadFailure
| HashMismatch.

Definition response_of (o : outcome) (net_file : string) : response :=
  match o with
  | Committed => JSONResponse 201 "File uploaded successfully"
  | MissingFilename => HTTPException 400 "No filename provided in the upload"
  | InvalidNamePattern =>
      HTTPException 400
        ("Filename " +:+ net_file +:+ " does not match expected pattern "
         +:+ "(nn-[0-9a-f]{12}.nnue)")
  | AlreadyExists =>
      HTTPException 409 ("File " +:+ net_file +:+ " already uploaded")
  | WriteFailure => HTTPException 500 ("Failed to write file " +:+ net_file)
  | ReadFailure =>
      HTTPException 500 ("Failed to read uploaded file " +:+ net_file)
  | HashMismatch =>
      HTTPException 500 ("Invalid hash for uploaded file " +:+ net_file)
  end.

Definition is_failure (o : outcome) : bool :=
  match o with Committed => false | _ => true end.

(** The name the uploader computes for a payload:
    [f"nn-{hashlib.sha256(data).hexdigest()[:12]}.nnue"]. *)
Definition fingerprint (data : list byte) : string :=
  PyStr.slice 0 12 (Sha256.hexdigest data).

Definition net_name (data : list byte) : string :=
  "nn-" +:+ fingerprint data +:+ ".nnue".

(** ** A gzip codec that only stores

    An instance of the two [gzip] functions: the RFC 1952 container around
    DEFLATE stored blocks (RFC 1951, BTYPE 00), one payload byte per block,
    closed by the CRC-32 and the length. *)

Module Gz.

Definition byte_to_Z (b : byte) : Z := Z.of_N (Byte.to_N b).
Definition byte_of_Z (x : Z) : byte :=
  default x00 (Byte.of_N (Z.to_N (x mod 256))).

Definition le_bytes (n : nat) (x : Z) : list byte :=
  map (fun i => byte_of_Z (Z.shiftr x (8 * Z.of_nat i))) (seq 0 n).

Definition crc32_bit (c : Z) : Z :=
  if Z.odd c then Z.lxor (Z.shiftr c 1) 0xedb88320 else Z.shiftr c 1.

Definition crc32_byte (crc : Z) (b : byte) : Z :=
  Nat.iter 8 crc32_bit (Z.lxor crc (byte_to_Z b)).

Definition crc32 (data : list byte) : Z :=
  Z.lxor (fold_left crc32_byte data 0xffffffff) 0xffffffff.

Definition header (mtime : Z) : list byte :=
  [x1f; x8b; x08; x00] ++ le_bytes 4 mtime ++ [x02; xff].

Definition stored_byte (b : byte) : list byte := [x00; x01; x00; xfe; xff; b].
Definition stored_end : list byte := [x01; x00; x00; xff; xff].

Definition trailer (data : list byte) : list byte :=
  le_bytes 4 (crc32 data) ++ le_bytes 4 (Z.of_nat (length data)).

Definition gzip_file (fname : string) (mtime : Z) (data : list byte)
  : list byte :=
  header mtime ++ flat_map stored_byte data ++ stored_end ++ trailer data.

Fixpoint bytes_eqb (a b : list byte) : bool :=
  match a, b with
  | [], [] => true
  | x :: a', y :: b' => Byte.eqb x y && bytes_eqb a' b'
  | _, _ => false
  end.

(** The header of a stored block: is it the final one, and its length;
    [None] for another block type or when LEN and NLEN disagree. *)
Definition stored_header (hd l0 l1 n0 n1 : byte) : option (bool * nat) :=
  let len := byte_to_Z l0 + 256 * byte_to_Z l1 in
  let nlen := byte_to_Z n0 + 256 * byte_to_Z n1 in
  if (byte_to_Z hd <? 2) && (len + nlen =? 65535)
  then Some (Byte.eqb hd x01, Z.to_nat len) else None.

(** Stored blocks up to the final one; the output and what follows. *)
Fixpoint inflate_stored (fuel : nat) (input acc : list byte)
  : option (list byte * list byte) :=
  match fuel, input with
  | S fuel', hd :: l0 :: l1 :: n0 :: n1 :: rest =>
      match stored_header hd l0 l1 n0 n1 with
      | Some (final, len) =>
          if (len <=? length rest)%nat then
            let out := acc ++ firstn len rest in
            if final then Some (out, skipn len rest)
            else inflate_stored fuel' (skipn len rest) out
          else None
      | None => None
      end
  | _, _ => None
  end.

Definition gzip_decompress (input : list byte) : option (list byte) :=
  match input with
  | id1 :: id2 :: cm :: flg :: _ :: _ :: _ :: _ :: _ :: _ :: body =>
      if Byte.eqb id1 x1f && Byte.eqb id2 x8b && Byte.eqb cm x08
         && Byte.eqb flg x00 then
        match inflate_stored (length body) body [] with
        | Some (out, rest) =>
            if bytes_eqb rest (trailer out) then Some out else None
        | None => None
        end
      else None
  | _ => None
  end.

End Gz.

(** The endpoint over the storing codec. *)
Abbreviation upload_gz := (create_upload_net Gz.gzip_file Gz.gzip_decompress).

(** ** The fixtures of the test suite *)

(** [net_data] of [create_net_file], and its name. *)
Definition net_data : list byte :=
  list_byte_of_string "test neural network data".

Definition test_filename : string := "nn-51cd90b4b052.nnue".

(** The name [create_net_file(correct_hash=False)] builds: the hash plus
    one. *)
Definition wrong_hash : string := "51cd90b4b053".

(** The name of the test with a line feed after it. *)
Definition newline_filename : string := test_filename +:+ String PyStr.LF "".

(** Environments without faults, a minute apart. *)
Definition quiet_env : io_env := IoEnv 1700000000 false None false None.
Definition later_env : io_env := IoEnv 1700000060 false None false None.

(** An environment whose [gzip.open] raises something other than
    [FileExistsError]. *)
Definition failing_open_env : io_env :=
  IoEnv 1700000000 true None false None.

(** A store whose only file is at the target path of the name of the test,
    and one whose only file is elsewhere. *)
Definition occupied_store : store := <[net_path test_filename := [x00]]> ∅.
Definition other_store : store := <["other.gz" := [x00]]> ∅.

(** An environment whose write fails after the file was created, leaving
    the two magic bytes of the header. *)
Definition full_disk_env : io_env :=
  IoEnv 1700000000 false (Some [x1f; x8b]) false None.

(** An environment in which [await upload.read()] is cancelled: the file
    was created, the close of the [with] block ends the empty gzip
    stream. *)
Definition cancelled_env : io_env :=
  IoEnv 1700000000 false None false
    (Some (Gz.gzip_file (net_path test_filename) 1700000000 [])).

(** The source text of the pattern of line 34, and the pattern as section
    8 of the specification spells it. *)
Definition NET_PATTERN_TEXT : string := "^nn-[0-9a-f]{12}\.nnue$".
Definition NET_PATTERN_SPEC_TEXT : string := "nn-[0-9a-f]{12}\.nnue".


(** A stored file is a verified artifact when it decompresses to a payload
    whose fingerprint is the one its name carries. *)
Definition verified_artifact (gzip_decompress : list byte -> option (list byte))
    (net_file : string) (content : list byte) : Prop :=
  exists data, gzip_decompress content = Some data /\
               fingerprint data = PyStr.slice 3 15 net_file.

Definition store_verified (gzip_decompress : list byte -> option (list byte))
    (fs : store) : Prop :=
  forall net_file content,
    fs !! net_path net_file = Some content ->
    verified_artifact gzip_decompress net_file content.

(** Two environments that differ at most in the time stamp and in the bytes
    a failed or cancelled write leaves behind. *)
Definition same_faults (e1 e2 : io_env) : bool :=
  Bool.eqb (open_fault e1) (open_fault e2)
  && Bool.eqb (match write_fault e1 with Some _ => true | None => false end)
              (match write_fault e2 with Some _ => true | None => false end)
  && Bool.eqb (read_fault e1) (read_fault e2)
  && Bool.eqb
       (match write_interrupt e1 with Some _ => true | None => false end)
       (match write_interrupt e2 with Some _ => true | None => false end).

(** The run ended with a response: no exception left the function. *)
Definition answered (r : response) : bool :=
  match r with
  | Unhandled _ => false
  | _ => true
  end.

(** The stores the server produces as long as every request is answered:
    the empty directory, and what an answered request leaves of such a
    store. *)
Inductive served (gzip_file : string -> Z -> list byte -> list byte)
    (gzip_decompress : list byte -> option (list byte)) : store -> Prop :=
| served_empty : served gzip_file gzip_decompress ∅
| served_upload (env : io_env) (fs : store) (filename : option string)
    (data : list byte) :
    served gzip_file gzip_decompress fs ->
    answered
      (snd (create_upload_net gzip_file gzip_decompress env fs filename data))
    = true ->
    served gzip_file gzip_decompress
      (fst (create_upload_net gzip_file gzip_decompress env fs filename data)).

(** The stores the server can produce: the empty directory, and what a
    request leaves of such a store. *)
Inductive reachable (gzip_file : string -> Z -> list byte -> list byte)
    (gzip_decompress : list byte -> option (list byte)) : store -> Prop :=
| reach_empty : reachable gzip_file gzip_decompress ∅
| reach_upload (env : io_env) (fs : store) (filename : option string)
    (data : list byte) :
    reachable gzip_file gzip_decompress fs ->
    reachable gzip_file gzip_decompress
      (fst (create_upload_net gzip_file gzip_decompress env fs filename data)).

(** The naming contract in the words of the specification: [nn-], exactly
    twelve lowercase hexadecimal characters, [.nnue], nothing more. *)
Definition bit_exact_name (s : string) : bool :=
  (String.length s =? 20)%nat
  && String.eqb (PyStr.slice 0 3 s) "nn-"
  && PyStr.all_chars PyStr.is_lower_hex (PyStr.slice 3 15 s)
  && String.eqb (PyStr.slice 15 20 s) ".nnue".

(** ** The helpers of the test suite ([tests/test_app.py]) *)

Module TestApp.

(** The value of a hexadecimal digit, of either case. *)
Definition hex_value (c : ascii) : option Z :=
  let n := Z.of_nat (Ascii.nat_of_ascii c) in
  if (48 <=? n) && (n <=? 57) then Some (n - 48)
  else if (97 <=? n) && (n <=? 102) then Some (n - 87)
  else if (65 <=? n) && (n <=? 70) then Some (n - 55)
  else None.

Fixpoint int16_from (acc : Z) (s : string) : option Z :=
  match s with
  | EmptyString => Some acc
  | String c s' =>
      match hex_value c with
      | Some d => int16_from (16 * acc + d) s'
      | None => None
      end
  end.

(** [int(s, 16)] on a string of hexadecimal digits; [None] is
    [ValueError].  Python also reads a sign, the prefix [0x], underscores
    and blanks around the digits: those forms are left out, the slice of a
    [hexdigest] has none of them. *)
Definition int16 (s : string) : option Z :=
  match s with
  | EmptyString => None
  | String _ _ => int16_from 0 s
  end.

(** The [digits] lowest hexadecimal digits of [n], the highest first, in
    front of [rest]. *)
Fixpoint hex_of (digits : nat) (n : Z) (rest : string) : string :=
  match digits with
  | O => rest
  | S digits' =>
      hex_of digits' (Z.shiftr n 4) (String (Sha256.hexdigit n) rest)
  end.

(** How many hexadecimal digits [n >= 0] takes. *)
Definition hex_len (n : Z) : nat :=
  if n =? 0 then 1%nat else S (Z.to_nat (Z.log2 n / 4)).

(** [f"{n:012x}"]: lowercase hexadecimal, filled with zeros up to twelve
    characters, the sign included. *)
Definition format_012x (n : Z) : string :=
  if n <? 0 then String "-" (hex_of (Nat.max 11 (hex_len (- n))) (- n) "")
  else hex_of (Nat.max 12 (hex_len n)) n "".

(** [create_net_file] for a payload: the payload and its name, with the
    right hash or with the hash plus one modulo [1 << 48]. *)
Definition create_net_file_of (data : list byte) (correct_hash : bool)
  : option (string * list byte) :=
  let net_hash := PyStr.slice 0 12 (Sha256.hexdigest data) in
  if correct_hash then Some ("nn-" +:+ net_hash +:+ ".nnue", data)
  else
    match int16 net_hash with
    | None => None
    | Some v =>
        let wrong_hash_int := (v + 1) mod (Z.shiftl 1 48) in
        Some ("nn-" +:+ format_012x wrong_hash_int +:+ ".nnue", data)
    end.

(** [create_net_file], whose payload is fixed. *)
Definition create_net_file (correct_hash : bool)
  : option (string * list byte) :=
  create_net_file_of net_data correct_hash.

(** [ensure_clean_nn_file(filename)]: the file is removed if it is there;
    the store afterwards and the path. *)
Definition ensure_clean_nn_file (fs : store) (filename : string)
  : store * string :=
  let file_path := net_path filename in
  match fs !! file_path with
  | Some _ => (fst (unlink false fs file_path), file_path)
  | None => (fs, file_path)
  end.

End TestApp.

(** No character of the string is the path separator. *)
Definition no_slash (s : string) : bool :=
  PyStr.all_chars (fun c => negb (Ascii.eqb c "/")) s.

(** * Properties *)

(** ** Strings *)

Lemma starts_with_app (p s : string) : PyStr.starts_with p (p +:+ s) = true.
Proof.
  induction p as [|c p IH]; simpl; [reflexivity|].
  now rewrite Ascii.eqb_refl, IH.
Qed.

Lemma contains_here (n post : string) : PyStr.contains n (n +:+ post) = true.
Proof.
  pose proof (starts_with_app n post) as H.
  destruct (n +:+ post); simpl; now rewrite H.
Qed.

Lemma contains_later (n pre post : string) :
  PyStr.contains n post = true -> PyStr.contains n (pre +:+ post) = true.
Proof.
  intros H. induction pre as [|c pre IH]; [exact H|].
  change (PyStr.contains n (String c pre +:+ post))
    with (PyStr.starts_with n (String c (pre +:+ post))
          || PyStr.contains n (pre +:+ post)).
  rewrite IH. apply orb_true_r.
Qed.

Lemma append_assoc (a b c : string) : (a +:+ b) +:+ c = a +:+ (b +:+ c).
Proof. induction a as [|x a IH]; simpl; [reflexivity|now rewrite IH]. Qed.

Lemma substring_app (h rest : string) :
  String.substring 0 (String.length h) (h +:+ rest) = h.
Proof.
  induction h as [|c h IH]; simpl; [destruct rest; reflexivity|].
  now rewrite IH.
Qed.

(** The class [[0-9a-f]] is the set of lowercase hexadecimal digits. *)
Lemma hex_class (c : ascii) :
  Re.in_ranges [("0", "9"); ("a", "f")]%char c = PyStr.is_lower_hex c.
Proof.
  destruct c as [[] [] [] [] [] [] [] []]; reflexivity.
Qed.

Lemma all_chars_ext (p q : ascii -> bool) :
  (forall c, p c = q c) ->
  forall s, PyStr.all_chars p s = PyStr.all_chars q s.
Proof.
  intros E s. induction s as [|c s IH]; simpl; [reflexivity|].
  now rewrite E, IH.
Qed.

(** ** The matcher on the pattern of the server *)

Lemma at_eol_spec (s : string) :
  Re.at_eol s = true <-> s = "" \/ s = String PyStr.LF "".
Proof.
  destruct s as [|c [|d s]]; simpl.
  - split; [now left|reflexivity].
  - rewrite Ascii.eqb_eq. split.
    + intros ->. now right.
    + intros [H|H]; [discriminate|now inversion H].
  - split; [discriminate|intros [H|H]; discriminate].
Qed.

Lemma matches_word (w : string) (rest : Re.regex) (start : bool) (s : string)
    (k : bool -> string -> bool) :
  Re.matches (Re.word w rest) start s k = true <->
  exists s', s = w +:+ s' /\
    Re.matches rest (match w with EmptyString => start | _ => false end) s' k
    = true.
Proof.
  revert start s. induction w as [|c w IH]; intros start s.
  - simpl. split; [intros H; now exists s|intros (s' & -> & H); exact H].
  - cbn [Re.word Re.matches]. destruct s as [|c' s].
    + split; [discriminate|intros (s' & H & _); discriminate].
    + rewrite andb_true_iff, Ascii.eqb_eq, IH. split.
      * intros (-> & s' & -> & H). exists s'. split; [reflexivity|].
        destruct w; exact H.
      * intros (s' & Hs & H). inversion Hs; subst. split; [reflexivity|].
        exists s'. split; [reflexivity|]. destruct w; exact H.
Qed.

Lemma times_ranges (n : nat) (rs : list (ascii * ascii)) (start : bool)
    (s : string) (k : bool -> string -> bool) :
  Re.times n (Re.matches (Re.Ranges rs)) start s k = true <->
  exists h s', s = h +:+ s' /\ String.length h = n /\
    PyStr.all_chars (Re.in_ranges rs) h = true /\
    k (match n with O => start | _ => false end) s' = true.
Proof.
  revert start s. induction n as [|n IH]; intros start s.
  - simpl. split.
    + intros H. now exists "", s.
    + intros (h & s' & -> & Hl & _ & H). now destruct h.
  - cbn [Re.times Re.matches]. destruct s as [|c s].
    + split; [discriminate|].
      intros (h & s' & Hs & Hl & _). destruct h; discriminate.
    + rewrite andb_true_iff, IH. split.
      * intros (Hc & h & s' & -> & Hl & Hh & H).
        exists (String c h), s'. simpl. rewrite Hc, Hh, Hl.
        repeat split. destruct n; exact H.
      * intros (h & s' & Hs & Hl & Hh & H).
        destruct h as [|c' h]; [discriminate|].
        simpl in Hs, Hl, Hh. inversion Hs; subst c' s.
        apply andb_true_iff in Hh as [Hc Hh]. split; [exact Hc|].
        exists h, s'. repeat split; [lia|exact Hh|]. destruct n; exact H.
Qed.

(** What [re.match] accepts: the exact shape, or the exact shape followed
    by one line feed. *)
Lemma re_match_spec (s : string) :
  Re.re_match NET_PATTERN s = true <->
  exists h, String.length h = 12%nat /\
    PyStr.all_chars PyStr.is_lower_hex h = true /\
    (s = "nn-" +:+ h +:+ ".nnue" \/
     s = "nn-" +:+ h +:+ ".nnue" +:+ String PyStr.LF "").
Proof.
  unfold Re.re_match, NET_PATTERN. cbn [Re.matches]. rewrite andb_true_l.
  rewrite matches_word. split.
  - intros (s1 & -> & H). cbn [Re.matches] in H.
    apply times_ranges in H as (h & s2 & -> & Hl & Hh & H).
    apply matches_word in H as (s3 & -> & H). cbn [Re.matches] in H.
    rewrite andb_true_r in H. apply at_eol_spec in H.
    exists h. split; [exact Hl|]. split.
    + now rewrite <- (all_chars_ext _ _ hex_class).
    + destruct H as [-> | ->]; [left|right]; reflexivity.
  - intros (h & Hl & Hh & Hs).
    assert (exists tl, s = "nn-" +:+ h +:+ ".nnue" +:+ tl /\
                       Re.at_eol tl = true) as (tl & -> & Htl).
    { destruct Hs as [-> | ->]; [exists ""|exists (String PyStr.LF "")];
        split; reflexivity. }
    eexists. split; [reflexivity|].
    cbn [Re.matches]. apply times_ranges.
    eexists h, _. split; [reflexivity|]. split; [exact Hl|]. split.
    + now rewrite (all_chars_ext _ _ hex_class).
    + apply matches_word. eexists. split; [reflexivity|].
      cbn [Re.matches]. now rewrite Htl.
Qed.

(** ** SHA-256 prints lowercase hexadecimal *)

Lemma hexdigit_lower_hex (d : Z) :
  PyStr.is_lower_hex (Sha256.hexdigit d) = true.
Proof.
  unfold Sha256.hexdigit.
  assert (Z.to_nat (d mod 16) < 16)%nat as H
    by (pose proof (Z.mod_pos_bound d 16); lia).
  destruct (Z.to_nat (d mod 16)) as [|n]; [reflexivity|].
  do 15 (destruct n as [|n]; [reflexivity|]). lia.
Qed.

Lemma fingerprint_shape (data : list byte) :
  String.length (fingerprint data) = 12%nat /\
  PyStr.all_chars PyStr.is_lower_hex (fingerprint data) = true.
Proof.
  unfold fingerprint, Sha256.hexdigest.
  destruct (Sha256.digest data) as [a b c d e f g h].
  split; [reflexivity|].
  cbn -[Sha256.hexdigit Z.shiftr PyStr.is_lower_hex].
  now rewrite !hexdigit_lower_hex.
Qed.

(** ** Names that pass the validation *)

Lemma slice_fingerprint (h rest : string) :
  String.length h = 12%nat ->
  PyStr.slice 3 15 ("nn-" +:+ h +:+ rest) = h.
Proof.
  intros Hl. unfold PyStr.slice. cbn -[String.substring String.append].
  change ("nn-" +:+ h +:+ rest)
    with (String "n" (String "n" (String "-" (h +:+ rest)))).
  cbn [String.substring]. rewrite <- Hl. apply substring_app.
Qed.

Lemma slice_net_name (data : list byte) :
  PyStr.slice 3 15 (net_name data) = fingerprint data.
Proof. apply slice_fingerprint, fingerprint_shape. Qed.

Lemma net_name_valid (data : list byte) :
  Re.re_match NET_PATTERN (net_name data) = true.
Proof.
  apply re_match_spec. exists (fingerprint data).
  destruct (fingerprint_shape data) as [Hl Hh].
  split; [exact Hl|]. split; [exact Hh|]. now left.
Qed.

Lemma valid_truthy (N : string) :
  Re.re_match NET_PATTERN N = true -> PyStr.truthy (Some N) = true.
Proof.
  intros H. apply re_match_spec in H as (h & _ & _ & [-> | ->]); reflexivity.
Qed.

Lemma fault_free_spec (env : io_env) :
  fault_free env = true ->
  open_fault env = false /\ write_fault env = None /\ read_fault env = false
  /\ write_interrupt env = None.
Proof.
  unfold fault_free. destruct (open_fault env), (write_fault env),
    (read_fault env), (write_interrupt env); simpl; intros H;
    try discriminate; auto.
Qed.

Lemma net_path_inj (a b : string) : net_path a = net_path b -> a = b.
Proof.
  unfold net_path. revert b. induction a as [|x a IH]; intros [|y b] H.
  - reflexivity.
  - destruct b as [|? [|? [|? ?]]]; discriminate.
  - destruct a as [|? [|? [|? ?]]]; discriminate.
  - cbn in H. inversion H. f_equal. now apply IH.
Qed.

(** ** The pipeline *)

Section PipelineProps.

Variable gzip_file : string -> Z -> list byte -> list byte.
Variable gzip_decompress : list byte -> option (list byte).

Local Abbreviation upload := (create_upload_net gzip_file gzip_decompress).

(** [gzip.decompress] undoes what [gzip.open] and [write] produce. *)
Hypothesis gzip_roundtrip :
  forall fname mtime data,
    gzip_decompress (gzip_file fname mtime data) = Some data.

(** Past the two validation tests. *)
Lemma upload_valid (env : io_env) (fs : store) (N : string) (B : list byte) :
  Re.re_match NET_PATTERN N = true ->
  upload env fs (Some N) B =
  match gzip_open_xb_write gzip_file env fs (net_path N) B with
  | (fs1, Raise FileExistsError) =>
      (fs1, HTTPException 409 ("File " +:+ N +:+ " already uploaded"))
  | (fs1, Raise e) =>
      if is_Exception e then
        unlink_then true fs1 (net_path N)
          (HTTPException 500 ("Failed to write file " +:+ N))
      else (fs1, Unhandled e)
  | (fs1, Ret _) =>
      match read_decompress gzip_decompress env fs1 (net_path N) with
      | Raise e =>
          if is_Exception e then
            unlink_then false fs1 (net_path N)
              (HTTPException 500 ("Failed to read uploaded file " +:+ N))
          else (fs1, Unhandled e)
      | Ret net_data =>
          if negb (String.eqb (fingerprint net_data) (PyStr.slice 3 15 N))
          then unlink_then false fs1 (net_path N)
                 (HTTPException 500 ("Invalid hash for uploaded file " +:+ N))
          else (fs1, JSONResponse 201 "File uploaded successfully")
      end
  end.
Proof.
  intros H. unfold create_upload_net.
  rewrite (valid_truthy _ H). cbn [negb default from_option id].
  rewrite H. reflexivity.
Qed.

(** A fault-free write on a free path, then the read back. *)
Lemma write_then_read (env : io_env) (fs : store) (p : string)
    (B : list byte) :
  fault_free env = true -> fs !! p = None ->
  gzip_open_xb_write gzip_file env fs p B
    = (<[p := gzip_file p (gz_mtime env) B]> fs, Ret tt) /\
  read_decompress gzip_decompress env
    (<[p := gzip_file p (gz_mtime env) B]> fs) p = Ret B.
Proof.
  intros Hff Hfree. apply fault_free_spec in Hff as (Ho & Hw & Hr & Hi).
  unfold gzip_open_xb_write, read_decompress, read_bytes.
  rewrite Ho, Hfree, Hi, Hw, Hr, lookup_insert_eq, gzip_roundtrip. auto.
Qed.

(** C1. Round trip: a payload submitted under its correctly computed name,
    to a fault-free environment and with the target path free, is
    committed: the response is 201 with the detail "File uploaded
    successfully", the store gains exactly the file [<name>.gz], and that
    file decompresses to the payload. *)
Theorem roundtrip_commit (env : io_env) (fs : store) (B : list byte) :
  fault_free env = true ->
  fs !! net_path (net_name B) = None ->
  let stored := gzip_file (net_path (net_name B)) (gz_mtime env) B in
  upload env fs (Some (net_name B)) B
    = (<[net_path (net_name B) := stored]> fs,
       JSONResponse 201 "File uploaded successfully")
  /\ gzip_decompress stored = Some B.
Proof.
  intros Hff Hfree stored. split; [|apply gzip_roundtrip].
  rewrite (upload_valid _ _ _ _ (net_name_valid B)).
  destruct (write_then_read env fs _ B Hff Hfree) as [-> ->].
  now rewrite slice_net_name, String.eqb_refl.
Qed.


(** The pipeline past validation, as a decision table.  The one run
    that ends without a response is the cancelled one: the file that was
    created stays. *)
Lemma upload_table (env : io_env) (fs : store) (N : string) (B : list byte) :
  Re.re_match NET_PATTERN N = true ->
  upload env fs (Some N) B =
  let p := net_path N in
  if open_fault env then (delete p fs, response_of WriteFailure N)
  else match fs !! p with
       | Some _ => (fs, response_of AlreadyExists N)
       | None =>
           match write_interrupt env with
           | Some closed => (<[p := closed]> fs, Unhandled Interrupt)
           | None =>
               match write_fault env with
               | Some _ => (fs, response_of WriteFailure N)
               | None =>
                   let gz := gzip_file p (gz_mtime env) B in
                   if read_fault env then (fs, response_of ReadFailure N)
                   else match gzip_decompress gz with
                        | None => (fs, response_of ReadFailure N)
                        | Some d =>
                            if String.eqb (fingerprint d)
                                 (PyStr.slice 3 15 N)
                            then (<[p := gz]> fs, response_of Committed N)
                            else (fs, response_of HashMismatch N)
                        end
               end
           end
       end.
Proof.
  intros H. rewrite (upload_valid _ _ _ _ H). cbv zeta.
  unfold gzip_open_xb_write, read_decompress, read_bytes, unlink_then, unlink.
  destruct (open_fault env).
  { destruct (fs !! net_path N) eqn:E; [reflexivity|].
    now rewrite delete_id by exact E. }
  destruct (fs !! net_path N) eqn:E; [reflexivity|].
  destruct (write_interrupt env); [reflexivity|].
  destruct (write_fault env).
  { cbn [is_Exception]. now rewrite lookup_insert_eq, delete_insert_id by exact E. }
  destruct (read_fault env).
  { now rewrite lookup_insert_eq, delete_insert_id by exact E. }
  rewrite lookup_insert_eq.
  destruct (gzip_decompress _) as [d|].
  2: now rewrite delete_insert_id by exact E.
  destruct (String.eqb _ _); cbn [negb]; [reflexivity|].
  now rewrite delete_insert_id by exact E.
Qed.

(** Names that fail one of the two tests never reach the store. *)
Lemma upload_rejected (env : io_env) (fs : store) (filename : option string)
    (B : list byte) :
  let N := default "" filename in
  PyStr.truthy filename && Re.re_match NET_PATTERN N = false ->
  upload env fs filename B =
  (fs, if PyStr.truthy filename then response_of InvalidNamePattern N
       else response_of MissingFilename N).
Proof.
  intros N H. unfold create_upload_net. fold N.
  destruct (PyStr.truthy filename); [|reflexivity].
  cbn [andb] in H. now rewrite H.
Qed.

(** C2. Hash mismatch with cleanup: for a well-formed name whose twelve
    hexadecimal digits differ from the SHA-256 prefix of the payload, a
    fault-free environment and a free target path, the response is 500
    "Invalid hash for uploaded file <name>" and the store is what it was
    before the request, so nothing remains at the target path. *)
Theorem hash_mismatch_cleanup (env : io_env) (fs : store) (h : string)
    (B : list byte) :
  fault_free env = true ->
  String.length h = 12%nat ->
  PyStr.all_chars PyStr.is_lower_hex h = true ->
  h <> fingerprint B ->
  fs !! net_path ("nn-" +:+ h +:+ ".nnue") = None ->
  upload env fs (Some ("nn-" +:+ h +:+ ".nnue")) B
    = (fs, HTTPException 500
             ("Invalid hash for uploaded file " +:+ "nn-" +:+ h +:+ ".nnue"))
  /\ fst (upload env fs (Some ("nn-" +:+ h +:+ ".nnue")) B)
       !! net_path ("nn-" +:+ h +:+ ".nnue") = None.
Proof.
  intros Hff Hl Hh Hne Hfree.
  assert (Re.re_match NET_PATTERN ("nn-" +:+ h +:+ ".nnue") = true) as Hv.
  { apply re_match_spec. exists h. auto. }
  apply fault_free_spec in Hff as (Ho & Hw & Hr & Hi).
  rewrite (upload_table _ _ _ _ Hv). cbv zeta.
  rewrite Ho, Hfree, Hi, Hw, Hr, gzip_roundtrip, (slice_fingerprint _ _ Hl).
  destruct (String.eqb_spec (fingerprint B) h) as [E|_]; [now subst|].
  split; [reflexivity|exact Hfree].
Qed.

(** Every file of a store that a request leaves behind was verified. *)
Lemma store_verified_preserved (env : io_env) (fs : store)
    (filename : option string) (B : list byte) :
  store_verified gzip_decompress fs ->
  answered (snd (upload env fs filename B)) = true ->
  store_verified gzip_decompress (fst (upload env fs filename B)).
Proof.
  intros Hfs.
  destruct (PyStr.truthy filename && Re.re_match NET_PATTERN (default "" filename))
    eqn:Hv.
  2: { now rewrite (upload_rejected _ _ _ _ Hv). }
  apply andb_true_iff in Hv as [Ht Hv].
  destruct filename as [N|]; [|discriminate].
  change (default "" (Some N)) with N in Hv.
  rewrite (upload_table _ _ _ _ Hv). cbv zeta.
  assert (store_verified gzip_decompress (delete (net_path N) fs)) as Hdel.
  { intros n c Hn. apply Hfs. eapply lookup_weaken; [exact Hn|].
    apply delete_subseteq. }
  destruct (open_fault env); [intros _; exact Hdel|].
  destruct (fs !! net_path N) eqn:E; [intros _; exact Hfs|].
  destruct (write_interrupt env); [discriminate|].
  destruct (write_fault env); [intros _; exact Hfs|].
  destruct (read_fault env); [intros _; exact Hfs|].
  destruct (gzip_decompress _) as [d|] eqn:Hd; [|intros _; exact Hfs].
  destruct (String.eqb_spec (fingerprint d) (PyStr.slice 3 15 N)) as [Hh|_];
    [|intros _; exact Hfs].
  intros _ n c Hn. cbn [fst] in Hn.
  destruct (decide (net_path N = net_path n)) as [Heq|Hneq].
  - rewrite Heq, lookup_insert_eq in Hn. inversion Hn; subst c.
    apply net_path_inj in Heq as <-.
    exists d. split; [exact Hd|exact Hh].
  - rewrite lookup_insert_ne in Hn by exact Hneq. now apply Hfs.
Qed.


(** X14. As long as every request is answered, every file of the store is
    a verified artifact: in a store built from the empty directory by
    requests that each ended with a response, each file decompresses to
    data whose SHA-256 prefix is the slice [3:15] of its name. *)
Lemma served_verified (fs : store) :
  served gzip_file gzip_decompress fs ->
  store_verified gzip_decompress fs.
Proof.
  induction 1 as [|env fs filename B _ IH Hans].
  - intros n c Hn. now rewrite lookup_empty in Hn.
  - now apply store_verified_preserved.
Qed.

(** A request that fails creates no file and alters none. *)
Lemma failure_submap (env : io_env) (fs : store) (filename : option string)
    (B : list byte) (o : outcome) :
  snd (upload env fs filename B) = response_of o (default "" filename) ->
  is_failure o = true ->
  fst (upload env fs filename B) ⊆ fs.
Proof.
  intros Hr Hfail.
  destruct (PyStr.truthy filename
            && Re.re_match NET_PATTERN (default "" filename)) eqn:Hv.
  2: { now rewrite (upload_rejected _ _ _ _ Hv). }
  apply andb_true_iff in Hv as [Ht Hv].
  destruct filename as [n|]; [|discriminate].
  change (default "" (Some n)) with n in Hv, Hr.
  rewrite (upload_table _ _ _ _ Hv) in Hr |- *. cbv zeta in Hr |- *.
  destruct (open_fault env); [apply delete_subseteq|].
  destruct (fs !! net_path n) eqn:E; [reflexivity|].
  destruct (write_interrupt env);
    [cbn in Hr; destruct o; cbn in Hr; discriminate|].
  destruct (write_fault env); [reflexivity|].
  destruct (read_fault env); [reflexivity|].
  destruct (gzip_decompress _); [|reflexivity].
  destruct (String.eqb _ _); [|reflexivity].
  cbn in Hr. destruct o; cbn in Hr; discriminate.
Qed.

(** X16. What holds of the six failures, relative to the store before the
    request: when a request ends in one of the six
    failures, the target path is absent or holds what it held before, and
    no file of the store was created or altered; after a write failure, a
    read failure or a hash mismatch the target path is absent and the rest
    of the store is as before (nothing is left when the store was empty);
    and if every file of the store was a verified artifact before the
    request, every file is one after it. *)
Theorem failure_leaves_no_residue (env : io_env) (fs : store)
    (filename : option string) (B : list byte) (o : outcome) :
  snd (upload env fs filename B) = response_of o (default "" filename) ->
  is_failure o = true ->
  let p := net_path (default "" filename) in
  let fs' := fst (upload env fs filename B) in
  (fs' !! p = None \/ fs' !! p = fs !! p)
  /\ fs' ⊆ fs
  /\ (o = WriteFailure \/ o = ReadFailure \/ o = HashMismatch ->
      fs' !! p = None /\ fs' = delete p fs /\ (fs = ∅ -> fs' = ∅))
  /\ (store_verified gzip_decompress fs -> store_verified gzip_decompress fs').
Proof.
  intros Hr Hfail p fs'.
  pose proof (failure_submap _ _ _ _ _ Hr Hfail) as Hsub. fold fs' in Hsub.
  split; [|split; [exact Hsub|split]].
  3: { intros Hfs. apply store_verified_preserved; [exact Hfs|].
       rewrite Hr. now destruct o. }
  { destruct (fs' !! p) as [c|] eqn:E; [right|now left].
    symmetry. eapply lookup_weaken; [exact E|exact Hsub]. }
  intros Ho. subst fs' p. clear Hsub.
  destruct (PyStr.truthy filename
            && Re.re_match NET_PATTERN (default "" filename)) eqn:Hv.
  { apply andb_true_iff in Hv as [Ht Hv].
    destruct filename as [n|]; [|discriminate].
    change (default "" (Some n)) with n in Hv, Hr |- *.
    rewrite (upload_table _ _ _ _ Hv) in Hr |- *. cbv zeta in Hr |- *.
    assert (forall m : store, m !! net_path n = None ->
            m !! net_path n = None /\ m = delete (net_path n) m
            /\ (m = ∅ -> m = ∅)) as Hsame.
    { intros m E. now rewrite delete_id by exact E. }
    destruct (open_fault env).
    { cbn [fst]. split; [apply lookup_delete_eq|]. split; [reflexivity|].
      intros ->. apply delete_empty. }
    destruct (fs !! net_path n) eqn:E.
    { cbn in Hr. destruct Ho as [-> | [-> | ->]]; cbn in Hr; congruence. }
    destruct (write_interrupt env).
    { cbn in Hr. destruct Ho as [-> | [-> | ->]]; cbn in Hr; congruence. }
    destruct (write_fault env); [now apply Hsame|].
    destruct (read_fault env); [now apply Hsame|].
    destruct (gzip_decompress _); [|now apply Hsame].
    destruct (String.eqb _ _); [|now apply Hsame].
    cbn in Hr. destruct Ho as [-> | [-> | ->]]; cbn in Hr; congruence. }
  rewrite (upload_rejected _ _ _ _ Hv) in Hr. exfalso.
  destruct (PyStr.truthy filename);
    destruct Ho as [-> | [-> | ->]]; cbn in Hr; congruence.
Qed.

(** C4. A duplicate leaves the winner untouched: the same payload under
    its correct name, twice, to fault-free environments and with the
    target path free at first: the first call is committed (201), the
    second is the conflict (409, "File <name> already uploaded"), and the
    store after the second call is the store after the first. *)
Theorem duplicate_conflict (env1 env2 : io_env) (fs : store)
    (B : list byte) :
  fault_free env1 = true -> fault_free env2 = true ->
  fs !! net_path (net_name B) = None ->
  let first := upload env1 fs (Some (net_name B)) B in
  let second := upload env2 (fst first) (Some (net_name B)) B in
  snd first = JSONResponse 201 "File uploaded successfully"
  /\ snd second
     = HTTPException 409 ("File " +:+ net_name B +:+ " already uploaded")
  /\ fst second = fst first
  /\ fst second !! net_path (net_name B)
     = Some (gzip_file (net_path (net_name B)) (gz_mtime env1) B).
Proof.
  intros H1 H2 Hfree first second. subst second first.
apply fault_free_spec in H1 as (Ho1 & Hw1 & Hr1 & Hi1).
apply fault_free_spec in H2 as (Ho2 & _ & _ & _).
rewrite (upload_table env1 _ _ _ (net_name_valid B)). cbv zeta.
rewrite Ho1, Hfree, Hi1, Hw1, Hr1, gzip_roundtrip, slice_net_name, String.eqb_refl.
cbn [fst snd response_of].
rewrite (upload_table env2 _ _ _ (net_name_valid B)). cbv zeta.
rewrite Ho2, lookup_insert_eq. cbn [fst snd response_of].
repeat split. apply lookup_insert_eq.
Qed.

(** C6. Missing file name: an absent or empty file name is answered with
    400 "No filename provided in the upload" whatever the payload, the
    environment and the store are, and the store is left as it was. *)
Theorem missing_filename_rejected (env : io_env) (fs : store)
    (B : list byte) :
  upload env fs None B
    = (fs, HTTPException 400 "No filename provided in the upload")
  /\ upload env fs (Some "") B
    = (fs, HTTPException 400 "No filename provided in the upload").
Proof. split; reflexivity. Qed.

(** C7, as amended. Diagnosability: a non-empty file name that fails the
    pattern is answered with 400 and the detail "Filename <name> does not
    match expected pattern (nn-[0-9a-f]{12}.nnue)", which contains the name
    and the pattern in the readable form [nn-[0-9a-f]{12}.nnue], without
    the anchors and the backslash of the expression of line 34; the store
    is left as it was. *)
Theorem pattern_rejection_echoes (env : io_env) (fs : store) (N : string)
    (B : list byte) :
  N <> "" ->
  Re.re_match NET_PATTERN N = false ->
  let detail :=
    "Filename " +:+ N
    +:+ " does not match expected pattern (nn-[0-9a-f]{12}.nnue)" in
  upload env fs (Some N) B = (fs, HTTPException 400 detail)
  /\ PyStr.contains N detail = true
  /\ PyStr.contains "nn-[0-9a-f]{12}.nnue" detail = true.
Proof.
  intros Hne Hv detail. split; [|split].
  - unfold create_upload_net. destruct N; [congruence|].
    cbn [PyStr.truthy negb default from_option id]. now rewrite Hv.
  - apply (contains_later N "Filename "), contains_here.
  - apply (contains_later _ "Filename "), (contains_later _ N).
    apply (contains_later _ " does not match expected pattern (").
    reflexivity.
Qed.

(** C9. Conflict detection is blind to the content: when a file is
    stored at the target path of a valid name, a fault-free request under
    that name is answered 409 and leaves the store as it was, whatever the
    payload; and in every environment the response does not depend on the
    payload and is never the hash mismatch. *)
Theorem conflict_is_content_blind (env : io_env) (fs : store) (N : string)
    (content B : list byte) :
  Re.re_match NET_PATTERN N = true ->
  fs !! net_path N = Some content ->
  (fault_free env = true ->
   upload env fs (Some N) B
     = (fs, HTTPException 409 ("File " +:+ N +:+ " already uploaded")))
  /\ (forall B', upload env fs (Some N) B' = upload env fs (Some N) B)
  /\ (forall n, snd (upload env fs (Some N) B) <> response_of HashMismatch n)
  /\ (forall n, snd (upload env fs (Some N) B) <> response_of Committed n).
Proof.
  intros Hv Hc. split; [|split; [|split]].
  - intros Hff. apply fault_free_spec in Hff as (Ho & _ & _ & _).
    rewrite (upload_table _ _ _ _ Hv). cbv zeta. now rewrite Ho, Hc.
  - intros B'. rewrite !(upload_table _ _ _ _ Hv). cbv zeta.
    now destruct (open_fault env); rewrite ?Hc.
  - intros n. rewrite (upload_table _ _ _ _ Hv). cbv zeta.
    destruct (open_fault env); rewrite ?Hc; cbn; congruence.
  - intros n. rewrite (upload_table _ _ _ _ Hv). cbv zeta.
    destruct (open_fault env); rewrite ?Hc; cbn; congruence.
Qed.

(** C10. The response is determined: two executions with the same file
    name and payload, the same prior state of the target path and the same
    faults of the environment (the time stamps, and with them the stored
    bytes, may differ) give the same status code and the same body. *)
Theorem response_deterministic (env1 env2 : io_env) (fs1 fs2 : store)
    (filename : option string) (B : list byte) :
  same_faults env1 env2 = true ->
  fs1 !! net_path (default "" filename)
    = fs2 !! net_path (default "" filename) ->
  snd (upload env1 fs1 filename B) = snd (upload env2 fs2 filename B).
Proof.
  intros Hs Hp.
  destruct (PyStr.truthy filename
            && Re.re_match NET_PATTERN (default "" filename)) eqn:Hv.
  2: { now rewrite !(upload_rejected _ _ _ _ Hv). }
  apply andb_true_iff in Hv as [Ht Hv].
  destruct filename as [N|]; [|discriminate].
  change (default "" (Some N)) with N in Hv, Hp.
  rewrite !(upload_table _ _ _ _ Hv). cbv zeta. rewrite <- Hp.
  unfold same_faults in Hs.
  apply andb_true_iff in Hs as [Hs Hi]. apply andb_true_iff in Hs as [Hs Hr].
  apply andb_true_iff in Hs as [Ho Hw].
  apply Bool.eqb_prop in Ho, Hw, Hr, Hi. rewrite <- Ho, <- Hr.
  destruct (open_fault env1); [reflexivity|].
  destruct (fs1 !! net_path N); [reflexivity|].
  destruct (write_interrupt env1), (write_interrupt env2); try discriminate;
    [reflexivity|].
  destruct (write_fault env1), (write_fault env2); try discriminate;
    [reflexivity|].
  destruct (read_fault env1); [reflexivity|].
  rewrite !gzip_roundtrip. now destruct (String.eqb _ _).
Qed.

(** C8. The validator and the verifier agree on the slice: a file name
    that passes the validation is [nn-], twelve lowercase hexadecimal
    digits and [.nnue] (a line feed may follow, see C5), the slice [3:15]
    is exactly those twelve digits, and they are what the verifier compares
    the SHA-256 prefix of the payload with: without faults and with the
    target path free, the request is committed when the two are equal and
    is the hash mismatch when they differ. *)
Theorem validated_slice_is_fingerprint (N : string) :
  Re.re_match NET_PATTERN N = true ->
  exists h tail,
    N = "nn-" +:+ h +:+ ".nnue" +:+ tail
    /\ (tail = "" \/ tail = String PyStr.LF "")
    /\ String.length h = 12%nat
    /\ PyStr.all_chars PyStr.is_lower_hex h = true
    /\ PyStr.slice 3 15 N = h
    /\ forall env fs B,
         fault_free env = true -> fs !! net_path N = None ->
         snd (upload env fs (Some N) B)
         = if String.eqb (fingerprint B) h
           then response_of Committed N else response_of HashMismatch N.
Proof.
  intros Hv. pose proof Hv as Hs.
  apply re_match_spec in Hs as (h & Hl & Hh & Hs).
  assert (exists tail, N = "nn-" +:+ h +:+ ".nnue" +:+ tail /\
                       (tail = "" \/ tail = String PyStr.LF ""))
    as (tail & HN & Htail).
  { destruct Hs as [-> | ->]; [exists ""|exists (String PyStr.LF "")];
      split; auto. }
  assert (PyStr.slice 3 15 N = h) as Hslice
    by (rewrite HN; now apply slice_fingerprint).
  exists h, tail. repeat (split; [assumption|]).
  intros env fs B Hff Hfree. apply fault_free_spec in Hff as (Ho & Hw & Hr & Hi).
  rewrite (upload_table _ _ _ _ Hv). cbv zeta.
  rewrite Ho, Hfree, Hi, Hw, Hr, gzip_roundtrip, Hslice.
  now destruct (String.eqb _ _).
Qed.

(** X13. The handler of a failed write unlinks with [missing_ok=True] whatever
    the reason of the failure: when [gzip.open] raises something other than
    [FileExistsError] on a path that holds a file, that file is removed. *)
Lemma failed_open_removes_stored_file (env : io_env) (fs : store) (N : string)
    (B : list byte) :
  Re.re_match NET_PATTERN N = true ->
  open_fault env = true ->
  upload env fs (Some N) B
  = (delete (net_path N) fs, HTTPException 500 ("Failed to write file " +:+ N)).
Proof.
  intros Hv Ho. rewrite (upload_table _ _ _ _ Hv). cbv zeta. now rewrite Ho.
Qed.

(** The one run that ends without a response: [await upload.read()] is
    cancelled after [gzip.open] created the file; no handler runs and the
    file stays. *)
Lemma unanswered_run (env : io_env) (fs : store) (filename : option string)
    (B : list byte) :
  answered (snd (upload env fs filename B)) = false ->
  exists N closed,
    filename = Some N
    /\ Re.re_match NET_PATTERN N = true
    /\ open_fault env = false
    /\ fs !! net_path N = None
    /\ write_interrupt env = Some closed
    /\ upload env fs filename B
       = (<[net_path N := closed]> fs, Unhandled Interrupt).
Proof.
  destruct (PyStr.truthy filename
            && Re.re_match NET_PATTERN (default "" filename)) eqn:Hv.
  2: { rewrite (upload_rejected _ _ _ _ Hv).
       destruct (PyStr.truthy filename); cbn; discriminate. }
  apply andb_true_iff in Hv as [Ht Hv].
  destruct filename as [N|]; [|discriminate].
  change (default "" (Some N)) with N in Hv.
  rewrite (upload_table _ _ _ _ Hv). cbv zeta.
  destruct (open_fault env) eqn:Ho; [discriminate|].
  destruct (fs !! net_path N) eqn:Hfree; [discriminate|].
  destruct (write_interrupt env) as [closed|] eqn:Hi.
  { intros _. exists N, closed. auto 10. }
  destruct (write_fault env); [discriminate|].
  destruct (read_fault env); [discriminate|].
  destruct (gzip_decompress _); [|discriminate].
  now destruct (String.eqb _ _).
Qed.

End PipelineProps.

(** ** The naming contract and the validation *)

Lemma bit_exact_name_spec (s : string) :
  bit_exact_name s = true <->
  exists h, String.length h = 12%nat /\
    PyStr.all_chars PyStr.is_lower_hex h = true /\
    s = "nn-" +:+ h +:+ ".nnue".
Proof.
  unfold bit_exact_name. split.
  - intros H.
    do 20 (destruct s as [|? s]; [discriminate H|]).
    destruct s; [|discriminate H].
    cbn -[PyStr.is_lower_hex PyStr.all_chars] in H.
    repeat (apply andb_true_iff in H as [H ?]).
    repeat match goal with
           | E : Ascii.eqb _ _ = true |- _ => apply Ascii.eqb_eq in E; subst
           | E : (if Ascii.eqb ?a ?b then _ else _) = true |- _ =>
               destruct (Ascii.eqb_spec a b); [subst|discriminate E]
           end.
    eexists (String _ (String _ (String _ (String _ (String _ (String _
            (String _ (String _ (String _ (String _ (String _ (String _
            "")))))))))))).
    split; [reflexivity|]. split; [eassumption|reflexivity].
  - intros (h & Hl & Hh & ->).
    do 12 (destruct h as [|? h]; [discriminate Hl|]).
    destruct h; [|discriminate Hl].
    cbn -[PyStr.is_lower_hex PyStr.all_chars] in *. now rewrite Hh.
Qed.

(** What the validation accepts, against the naming contract: the names of
    the contract, and those names followed by one line feed. *)
Lemma validation_accepts (s : string) :
  Re.re_match NET_PATTERN s = true <->
  bit_exact_name s = true \/
  exists s0, s = s0 +:+ String PyStr.LF "" /\ bit_exact_name s0 = true.
Proof.
  rewrite re_match_spec. split.
  - intros (h & Hl & Hh & [-> | ->]).
    + left. apply bit_exact_name_spec. eauto.
    + right. exists ("nn-" +:+ h +:+ ".nnue"). split.
      * now rewrite !append_assoc.
      * apply bit_exact_name_spec. eauto.
  - intros [H | (s0 & -> & H)];
      apply bit_exact_name_spec in H as (h & Hl & Hh & ->);
      exists h; repeat (split; [assumption|]); [now left|right].
    now rewrite !append_assoc.
Qed.

(** X15. Apart from a final line feed the validation is the naming
    contract: on a name that does not end in a line feed, [re.match] and
    the contract agree. *)
Lemma validation_exact_unless_newline (s : string) :
  (forall s0, s <> s0 +:+ String PyStr.LF "") ->
  Re.re_match NET_PATTERN s = bit_exact_name s.
Proof.
  intros Hnl. pose proof (validation_accepts s) as [Hto Hfrom].
  destruct (Re.re_match NET_PATTERN s), (bit_exact_name s); try reflexivity.
  - destruct (Hto eq_refl) as [H | (s0 & Hs & _)]; [discriminate|].
    now destruct (Hnl s0).
  - apply Hfrom. now left.
Qed.

(** ** The storing codec round-trips *)

Lemma flat_map_length_ge (data : list byte) :
  (length data <= length (flat_map Gz.stored_byte data))%nat.
Proof.
  induction data as [|b data IH]; [reflexivity|].
  cbn [flat_map Gz.stored_byte app length]. lia.
Qed.

Lemma bytes_eqb_refl (a : list byte) : Gz.bytes_eqb a a = true.
Proof.
  induction a as [|x a IH]; [reflexivity|]. cbn [Gz.bytes_eqb].
  rewrite IH, andb_true_r. now destruct x.
Qed.

Lemma inflate_stored_blocks (data tl acc : list byte) (fuel : nat) :
  (length data < fuel)%nat ->
  Gz.inflate_stored fuel
    (flat_map Gz.stored_byte data ++ Gz.stored_end ++ tl) acc
  = Some (acc ++ data, tl).
Proof.
  revert acc fuel. induction data as [|b data IH]; intros acc fuel Hf;
    (destruct fuel as [|fuel]; [lia|]).
  - change (Gz.inflate_stored (S fuel)
              (flat_map Gz.stored_byte [] ++ Gz.stored_end ++ tl) acc)
      with (Some (acc ++ [], tl)).
    now rewrite app_nil_r.
  - change (Gz.inflate_stored (S fuel)
              (flat_map Gz.stored_byte (b :: data) ++ Gz.stored_end ++ tl) acc)
      with (Gz.inflate_stored fuel
              (flat_map Gz.stored_byte data ++ Gz.stored_end ++ tl)
              (acc ++ [b])).
    rewrite IH by (cbn [length] in Hf; lia).
    now rewrite <- app_assoc.
Qed.

Lemma gz_roundtrip (fname : string) (mtime : Z) (data : list byte) :
  Gz.gzip_decompress (Gz.gzip_file fname mtime data) = Some data.
Proof.
  unfold Gz.gzip_file, Gz.header, Gz.le_bytes.
  cbn [seq map app Gz.gzip_decompress Byte.eqb].
  change (Byte.eqb x1f x1f && Byte.eqb x8b x8b && Byte.eqb x08 x08
          && Byte.eqb x00 x00) with true. cbv iota.
  rewrite inflate_stored_blocks.
  - cbn [app]. now rewrite bytes_eqb_refl.
  - rewrite length_app. pose proof (flat_map_length_ge data).
    unfold Gz.stored_end. cbn [length app]. lia.
Qed.

(** ** The pipeline on the fixtures of the test suite *)

(** C5 (the code departs from the claim). The name of the test followed by
    a line feed is not a name of the naming contract, yet it passes the
    validation, the request is committed with 201 and the file
    [<name>\n.gz] is stored. *)
Theorem newline_name_is_committed :
  bit_exact_name newline_filename = false
  /\ Re.re_match NET_PATTERN newline_filename = true
  /\ snd (upload_gz quiet_env ∅ (Some newline_filename) net_data)
     = JSONResponse 201 "File uploaded successfully"
  /\ fst (upload_gz quiet_env ∅ (Some newline_filename) net_data)
       !! net_path newline_filename
     = Some (Gz.gzip_file (net_path newline_filename) 1700000000 net_data).
Proof.
  assert (Re.re_match NET_PATTERN newline_filename = true) as Hv
    by (vm_compute; reflexivity).
  split; [vm_compute; reflexivity|]. split; [exact Hv|].
  rewrite (upload_table _ _ _ _ _ _ Hv). cbv zeta.
  cbn [quiet_env open_fault write_fault read_fault gz_mtime].
  rewrite lookup_empty, gz_roundtrip.
  replace (String.eqb (fingerprint net_data) (PyStr.slice 3 15 newline_filename))
    with true by (vm_compute; reflexivity).
  cbn [fst snd response_of]. split; [reflexivity|apply lookup_insert_eq].
Qed.

Lemma roundtrip_commit_witness :
  let stored :=
    Gz.gzip_file (net_path (net_name net_data)) (gz_mtime quiet_env) net_data in
  upload_gz quiet_env ∅ (Some (net_name net_data)) net_data
    = (<[net_path (net_name net_data) := stored]> ∅,
       JSONResponse 201 "File uploaded successfully")
  /\ Gz.gzip_decompress stored = Some net_data.
Proof.
  apply (roundtrip_commit Gz.gzip_file Gz.gzip_decompress gz_roundtrip
           quiet_env ∅ net_data).
  - reflexivity.
  - vm_compute. reflexivity.
Defined.

Lemma hash_mismatch_cleanup_witness :
  upload_gz quiet_env ∅ (Some ("nn-" +:+ wrong_hash +:+ ".nnue")) net_data
    = (∅, HTTPException 500
            ("Invalid hash for uploaded file " +:+ "nn-" +:+ wrong_hash
             +:+ ".nnue"))
  /\ fst (upload_gz quiet_env ∅ (Some ("nn-" +:+ wrong_hash +:+ ".nnue"))
            net_data)
       !! net_path ("nn-" +:+ wrong_hash +:+ ".nnue") = None.
Proof.
  apply (hash_mismatch_cleanup Gz.gzip_file Gz.gzip_decompress gz_roundtrip
           quiet_env ∅ wrong_hash net_data).
  - reflexivity.
  - reflexivity.
  - reflexivity.
  - vm_compute. discriminate.
  - vm_compute. reflexivity.
Defined.

Lemma failure_leaves_no_residue_witness :
  let p := net_path test_filename in
  let fs' := fst (upload_gz full_disk_env ∅ (Some test_filename) net_data) in
  (fs' !! p = None \/ fs' !! p = (∅ : store) !! p)
  /\ fs' ⊆ ∅
  /\ (WriteFailure = WriteFailure \/ WriteFailure = ReadFailure
      \/ WriteFailure = HashMismatch ->
      fs' !! p = None /\ fs' = delete p ∅ /\ ((∅ : store) = ∅ -> fs' = ∅))
  /\ (store_verified Gz.gzip_decompress ∅ ->
      store_verified Gz.gzip_decompress fs').
Proof.
  apply (failure_leaves_no_residue Gz.gzip_file Gz.gzip_decompress
           full_disk_env ∅ (Some test_filename) net_data WriteFailure).
  - vm_compute. reflexivity.
  - reflexivity.
Defined.

Lemma duplicate_conflict_witness :
  let first := upload_gz quiet_env ∅ (Some (net_name net_data)) net_data in
  let second :=
    upload_gz later_env (fst first) (Some (net_name net_data)) net_data in
  snd first = JSONResponse 201 "File uploaded successfully"
  /\ snd second
     = HTTPException 409 ("File " +:+ net_name net_data +:+ " already uploaded")
  /\ fst second = fst first
  /\ fst second !! net_path (net_name net_data)
     = Some (Gz.gzip_file (net_path (net_name net_data))
               (gz_mtime quiet_env) net_data).
Proof.
  apply (duplicate_conflict Gz.gzip_file Gz.gzip_decompress gz_roundtrip
           quiet_env later_env ∅ net_data).
  - reflexivity.
  - reflexivity.
  - vm_compute. reflexivity.
Defined.

Lemma pattern_rejection_echoes_witness :
  let detail :=
    "Filename " +:+ "invalid_filename.pattern"
    +:+ " does not match expected pattern (nn-[0-9a-f]{12}.nnue)" in
  upload_gz quiet_env ∅ (Some "invalid_filename.pattern") net_data
    = (∅, HTTPException 400 detail)
  /\ PyStr.contains "invalid_filename.pattern" detail = true
  /\ PyStr.contains "nn-[0-9a-f]{12}.nnue" detail = true.
Proof.
  apply (pattern_rejection_echoes Gz.gzip_file Gz.gzip_decompress
           quiet_env ∅ "invalid_filename.pattern" net_data).
  - discriminate.
  - vm_compute. reflexivity.
Defined.

Lemma validated_slice_is_fingerprint_witness :
  exists h tail,
    test_filename = "nn-" +:+ h +:+ ".nnue" +:+ tail
    /\ (tail = "" \/ tail = String PyStr.LF "")
    /\ String.length h = 12%nat
    /\ PyStr.all_chars PyStr.is_lower_hex h = true
    /\ PyStr.slice 3 15 test_filename = h
    /\ forall env fs B,
         fault_free env = true -> fs !! net_path test_filename = None ->
         snd (upload_gz env fs (Some test_filename) B)
         = if String.eqb (fingerprint B) h
           then response_of Committed test_filename
           else response_of HashMismatch test_filename.
Proof.
  apply (validated_slice_is_fingerprint Gz.gzip_file Gz.gzip_decompress
           gz_roundtrip test_filename).
  vm_compute. reflexivity.
Defined.

Lemma conflict_is_content_blind_witness :
  let fs : store := <[net_path test_filename := [x00]]> ∅ in
  (fault_free quiet_env = true ->
   upload_gz quiet_env fs (Some test_filename) net_data
     = (fs, HTTPException 409
              ("File " +:+ test_filename +:+ " already uploaded")))
  /\ (forall B', upload_gz quiet_env fs (Some test_filename) B'
                 = upload_gz quiet_env fs (Some test_filename) net_data)
  /\ (forall n, snd (upload_gz quiet_env fs (Some test_filename) net_data)
                <> response_of HashMismatch n)
  /\ (forall n, snd (upload_gz quiet_env fs (Some test_filename) net_data)
                <> response_of Committed n).
Proof.
  apply (conflict_is_content_blind Gz.gzip_file Gz.gzip_decompress quiet_env
           (<[net_path test_filename := [x00]]> ∅) test_filename [x00]
           net_data).
  - vm_compute. reflexivity.
  - vm_compute. reflexivity.
Defined.

Lemma response_deterministic_witness :
  snd (upload_gz quiet_env ∅ (Some test_filename) net_data)
  = snd (upload_gz later_env ∅ (Some test_filename) net_data).
Proof.
  apply (response_deterministic Gz.gzip_file Gz.gzip_decompress gz_roundtrip
           quiet_env later_env ∅ ∅ (Some test_filename) net_data).
  - reflexivity.
  - reflexivity.
Defined.

(** ** Known answers of the library models *)

(** The test vectors of FIPS 180-4 for the empty message and for [abc], and
    the hash of the payload of the test suite. *)
Example sha256_empty :
  Sha256.hexdigest []
  = "e3b0c44298fc1c149afbf4c8996fb92427ae41e4649b934ca495991b7852b855".
Proof. vm_compute. reflexivity. Qed.

Example sha256_abc :
  Sha256.hexdigest (list_byte_of_string "abc")
  = "ba7816bf8f01cfea414140de5dae2223b00361a396177a9cb410ff61f20015ad".
Proof. vm_compute. reflexivity. Qed.

Example sha256_two_blocks :
  Sha256.hexdigest (repeat x61 200)
  = "c2a908d98f5df987ade41b5fce213067efbcc21ef2240212a41e54b5e7c28ae5".
Proof. vm_compute. reflexivity. Qed.

Example net_name_of_net_data : net_name net_data = test_filename.
Proof. vm_compute. reflexivity. Qed.

(** [zlib.crc32(b"test neural network data")] is [0x0f46d215]. *)
Example crc32_net_data : Gz.crc32 net_data = 0x0f46d215.
Proof. vm_compute. reflexivity. Qed.

(** [re.match] on the names of the test suite and around them. *)
Example re_match_examples :
  Re.re_match NET_PATTERN test_filename = true
  /\ Re.re_match NET_PATTERN "invalid_filename.pattern" = false
  /\ Re.re_match NET_PATTERN "nn-51CD90B4B052.nnue" = false
  /\ Re.re_match NET_PATTERN "nn-51cd90b4b052.nnue.gz" = false
  /\ Re.re_match NET_PATTERN "nn-51cd90b4b052xnnue" = false
  /\ Re.re_match NET_PATTERN "xnn-51cd90b4b052.nnue" = false
  /\ Re.re_match NET_PATTERN newline_filename = true
  /\ Re.re_match NET_PATTERN (newline_filename +:+ String PyStr.LF "") = false.
Proof. vm_compute. repeat split. Qed.

(** ** The test suite, replayed on the model *)

(** An environment whose [gzip.open] raises, as the mock of
    [test_upload_failed_write] does. *)
Example test_upload_failed_write :
  upload_gz failing_open_env ∅ (Some test_filename) net_data
  = (∅, HTTPException 500 "Failed to write file nn-51cd90b4b052.nnue").
Proof. vm_compute. reflexivity. Qed.

(** A [gzip.decompress] that raises, as the mock of
    [test_upload_failed_read] does: the file just written is removed. *)
Example test_upload_failed_read :
  create_upload_net Gz.gzip_file (fun _ => None) quiet_env ∅
    (Some test_filename) net_data
  = (∅, HTTPException 500
          "Failed to read uploaded file nn-51cd90b4b052.nnue").
Proof. vm_compute. reflexivity. Qed.

Example test_upload_net_correct_hash :
  snd (upload_gz quiet_env ∅ (Some test_filename) net_data)
  = JSONResponse 201 "File uploaded successfully".
Proof. vm_compute. reflexivity. Qed.

Example test_upload_net_wrong_hash :
  upload_gz quiet_env ∅ (Some "nn-51cd90b4b053.nnue") net_data
  = (∅, HTTPException 500
          "Invalid hash for uploaded file nn-51cd90b4b053.nnue").
Proof. vm_compute. reflexivity. Qed.

Example test_upload_invalid_filename_pattern :
  upload_gz quiet_env ∅ (Some "invalid_filename.pattern") net_data
  = (∅, HTTPException 400
          "Filename invalid_filename.pattern does not match expected pattern (nn-[0-9a-f]{12}.nnue)").
Proof. vm_compute. reflexivity. Qed.

Example test_upload_file_exists :
  snd (upload_gz later_env
         (fst (upload_gz quiet_env ∅ (Some test_filename) net_data))
         (Some test_filename) net_data)
  = HTTPException 409 "File nn-51cd90b4b052.nnue already uploaded".
Proof. vm_compute. reflexivity. Qed.

(** * Further properties of the endpoint *)

Lemma all_chars_app (p : ascii -> bool) (a b : string) :
  PyStr.all_chars p (a +:+ b) = PyStr.all_chars p a && PyStr.all_chars p b.
Proof.
  induction a as [|c a IH]; [reflexivity|].
  cbn [String.append PyStr.all_chars]. now rewrite IH, andb_assoc.
Qed.

Lemma all_chars_impl (p q : ascii -> bool) (s : string) :
  (forall c, p c = true -> q c = true) ->
  PyStr.all_chars p s = true -> PyStr.all_chars q s = true.
Proof.
  intros Hpq. induction s as [|c s IH]; [reflexivity|].
  cbn [PyStr.all_chars]. intros H. apply andb_true_iff in H as [Hc Hs].
  now rewrite (Hpq _ Hc), IH.
Qed.

Lemma contains_self (n : string) : PyStr.contains n n = true.
Proof.
  assert (n +:+ "" = n) as E
    by (induction n as [|c n IH]; [reflexivity|cbn; now rewrite IH]).
  rewrite <- E at 2. apply contains_here.
Qed.

(** The responses of two outcomes differ. *)
Lemma response_of_inj (o o' : outcome) (n : string) :
  response_of o n = response_of o' n -> o = o'.
Proof. destruct o, o'; cbn; intros H; congruence. Qed.

(** A run that is answered ends in one of the seven outcomes. *)
Lemma upload_outcome (gzip_file : string -> Z -> list byte -> list byte)
    (gzip_decompress : list byte -> option (list byte)) (env : io_env)
    (fs : store) (filename : option string) (B : list byte) :
  answered
    (snd (create_upload_net gzip_file gzip_decompress env fs filename B))
  = true ->
  exists o,
    snd (create_upload_net gzip_file gzip_decompress env fs filename B)
    = response_of o (default "" filename).
Proof.
  destruct (PyStr.truthy filename
            && Re.re_match NET_PATTERN (default "" filename)) eqn:Hv.
  2: { rewrite (upload_rejected _ _ _ _ _ _ Hv).
       destruct (PyStr.truthy filename); eauto. }
  apply andb_true_iff in Hv as [Ht Hv].
  destruct filename as [N|]; [|discriminate].
  change (default "" (Some N)) with N in Hv |- *.
  rewrite (upload_table _ _ _ _ _ _ Hv). cbv zeta.
  destruct (open_fault env); [now exists WriteFailure|].
  destruct (fs !! net_path N); [now exists AlreadyExists|].
  destruct (write_interrupt env); [discriminate|].
  destruct (write_fault env); [now exists WriteFailure|].
  destruct (read_fault env); [now exists ReadFailure|].
  destruct (gzip_decompress _); [|now exists ReadFailure].
  destruct (String.eqb _ _); [now exists Committed|now exists HashMismatch].
Qed.

Section MorePipelineProps.

Variable gzip_file : string -> Z -> list byte -> list byte.
Variable gzip_decompress : list byte -> option (list byte).

Local Abbreviation upload := (create_upload_net gzip_file gzip_decompress).

Hypothesis gzip_roundtrip :
  forall fname mtime data,
    gzip_decompress (gzip_file fname mtime data) = Some data.

(** X1. Frame: whatever the outcome, a request leaves every path other
    than its own target as it was. *)
Theorem other_paths_untouched (env : io_env) (fs : store)
    (filename : option string) (B : list byte) (p : string) :
  p <> net_path (default "" filename) ->
  fst (upload env fs filename B) !! p = fs !! p.
Proof.
  intros Hp.
  destruct (PyStr.truthy filename
            && Re.re_match NET_PATTERN (default "" filename)) eqn:Hv.
  2: { now rewrite (upload_rejected _ _ _ _ _ _ Hv). }
  apply andb_true_iff in Hv as [Ht Hv].
  destruct filename as [N|]; [|discriminate].
  change (default "" (Some N)) with N in Hv, Hp.
  rewrite (upload_table _ _ _ _ _ _ Hv). cbv zeta.
  destruct (open_fault env); [now apply lookup_delete_ne|].
  destruct (fs !! net_path N); [reflexivity|].
  destruct (write_interrupt env); [now apply lookup_insert_ne|].
  destruct (write_fault env); [reflexivity|].
  destruct (read_fault env); [reflexivity|].
  destruct (gzip_decompress _); [|reflexivity].
  destruct (String.eqb _ _); [|reflexivity].
  now apply lookup_insert_ne.
Qed.

(** X2. What a 201 means: the name passed the validation, the target path
    was free, no fault occurred, the SHA-256 prefix of the payload is the
    slice [3:15] of the name, and the store gained exactly the compressed
    payload at the target path. *)
Theorem committed_only_if (env : io_env) (fs : store)
    (filename : option string) (B : list byte) :
  snd (upload env fs filename B)
    = JSONResponse 201 "File uploaded successfully" ->
  exists N,
    filename = Some N
    /\ Re.re_match NET_PATTERN N = true
    /\ fs !! net_path N = None
    /\ fault_free env = true
    /\ fingerprint B = PyStr.slice 3 15 N
    /\ fst (upload env fs filename B)
       = <[net_path N := gzip_file (net_path N) (gz_mtime env) B]> fs.
Proof.
  intros Hr.
  destruct (PyStr.truthy filename
            && Re.re_match NET_PATTERN (default "" filename)) eqn:Hv.
  2: { rewrite (upload_rejected _ _ _ _ _ _ Hv) in Hr.
       destruct (PyStr.truthy filename); discriminate. }
  apply andb_true_iff in Hv as [Ht Hv].
  destruct filename as [N|]; [|discriminate].
  change (default "" (Some N)) with N in Hv.
  exists N. split; [reflexivity|]. split; [exact Hv|].
  rewrite (upload_table _ _ _ _ _ _ Hv) in Hr |- *. cbv zeta in Hr |- *.
  unfold fault_free.
  destruct (open_fault env); [discriminate|].
  destruct (fs !! net_path N); [discriminate|].
  destruct (write_interrupt env); [discriminate|].
  destruct (write_fault env); [discriminate|].
  destruct (read_fault env); [discriminate|].
  rewrite gzip_roundtrip in Hr |- *.
  destruct (String.eqb_spec (fingerprint B) (PyStr.slice 3 15 N));
    [|discriminate].
  repeat split. assumption.
Qed.

(** X3. What a 409 means: for a name that passes the validation, the
    answer is the conflict exactly when [gzip.open] did not fail otherwise
    and the target path held a file. *)
Theorem conflict_iff_occupied (env : io_env) (fs : store) (N : string)
    (B : list byte) :
  Re.re_match NET_PATTERN N = true ->
  snd (upload env fs (Some N) B)
    = HTTPException 409 ("File " +:+ N +:+ " already uploaded")
  <-> open_fault env = false /\ is_Some (fs !! net_path N).
Proof.
  intros Hv. rewrite (upload_table _ _ _ _ _ _ Hv). cbv zeta.
  destruct (open_fault env).
  { split; [discriminate|intros [? _]; discriminate]. }
  destruct (fs !! net_path N) as [c|].
  { split; [eauto|reflexivity]. }
  assert (~ (false = false /\ is_Some (@None (list byte)))) as Hno.
  { intros [_ [x Hx]]. discriminate. }
  destruct (write_interrupt env); [split; [discriminate|now intros H]|].
  destruct (write_fault env); [split; [discriminate|now intros H]|].
  destruct (read_fault env); [split; [discriminate|now intros H]|].
  destruct (gzip_decompress _); [|split; [discriminate|now intros H]].
  destruct (String.eqb _ _); split; try discriminate; now intros H.
Qed.

(** X4. Write once: without I/O faults a request removes no file and
    changes none, so an artifact that is stored stays as it is through
    every later request, whatever its name and payload. *)
Theorem fault_free_store_grows (env : io_env) (fs : store)
    (filename : option string) (B : list byte) :
  fault_free env = true ->
  fs ⊆ fst (upload env fs filename B).
Proof.
  intros Hff. apply fault_free_spec in Hff as (Ho & Hw & Hr & Hi).
  destruct (PyStr.truthy filename
            && Re.re_match NET_PATTERN (default "" filename)) eqn:Hv.
  2: { now rewrite (upload_rejected _ _ _ _ _ _ Hv). }
  apply andb_true_iff in Hv as [Ht Hv].
  destruct filename as [N|]; [|discriminate].
  change (default "" (Some N)) with N in Hv.
  rewrite (upload_table _ _ _ _ _ _ Hv). cbv zeta. rewrite Ho, Hi, Hw, Hr.
  destruct (fs !! net_path N) eqn:E; [reflexivity|].
  destruct (gzip_decompress _); [|reflexivity].
  destruct (String.eqb _ _); [|reflexivity].
  now apply insert_subseteq.
Qed.


(** X5. The response tells the outcome: whenever a run ends with a
    response, it is the response of exactly one of the seven outcomes (the
    messages differ), a [JSONResponse] only for the commit, and the status
    is 201, 400, 409 or 500. *)
Theorem response_classifies (env : io_env) (fs : store)
    (filename : option string) (B : list byte) :
  answered (snd (upload env fs filename B)) = true ->
  exists o,
    snd (upload env fs filename B) = response_of o (default "" filename)
    /\ (forall o',
          snd (upload env fs filename B) = response_of o' (default "" filename)
          -> o' = o)
    /\ exists status detail,
         response_of o (default "" filename) =
           (if is_failure o then HTTPException status detail
            else JSONResponse status detail)
         /\ (status = 201 \/ status = 400 \/ status = 409 \/ status = 500).
Proof.
  intros Hans.
  destruct (upload_outcome gzip_file gzip_decompress env fs filename B Hans)
    as [o Ho].
  exists o. split; [exact Ho|]. split.
  - intros o' Ho'. rewrite Ho in Ho'. symmetry. now apply response_of_inj in Ho'.
  - destruct o; cbn; eauto 10.
Qed.

(** X6. The detail of every failure carries the file name of the request
    (the empty name when none was given). *)
Theorem failure_detail_names_file (env : io_env) (fs : store)
    (filename : option string) (B : list byte) (status : Z) (detail : string) :
  snd (upload env fs filename B) = HTTPException status detail ->
  PyStr.contains (default "" filename) detail = true.
Proof.
  intros Hr.
  destruct (PyStr.truthy filename
            && Re.re_match NET_PATTERN (default "" filename)) eqn:Hv.
  - apply andb_true_iff in Hv as [Ht Hv].
    destruct filename as [N|]; [|discriminate].
    change (default "" (Some N)) with N in Hv |- *.
    rewrite (upload_table _ _ _ _ _ _ Hv) in Hr. cbv zeta in Hr.
    assert (forall pre post, detail = pre +:+ N +:+ post ->
            PyStr.contains N detail = true) as Hin.
    { intros pre post ->. apply contains_later, contains_here. }
    assert (forall pre, detail = pre +:+ N ->
            PyStr.contains N detail = true) as Hend.
    { intros pre ->. apply contains_later, contains_self. }
    destruct (open_fault env).
    { injection Hr as _ <-. now apply (Hend "Failed to write file "). }
    destruct (fs !! net_path N).
    { injection Hr as _ <-. now apply (Hin "File " " already uploaded"). }
    destruct (write_interrupt env); [discriminate|].
    destruct (write_fault env).
    { injection Hr as _ <-. now apply (Hend "Failed to write file "). }
    destruct (read_fault env).
    { injection Hr as _ <-.
      now apply (Hend "Failed to read uploaded file "). }
    destruct (gzip_decompress _).
    2: { injection Hr as _ <-.
         now apply (Hend "Failed to read uploaded file "). }
    destruct (String.eqb _ _); [discriminate|].
    injection Hr as _ <-.
    now apply (Hend "Invalid hash for uploaded file ").
  - rewrite (upload_rejected _ _ _ _ _ _ Hv) in Hr.
    destruct filename as [[|c N]|]; cbn [PyStr.truthy andb] in Hv, Hr.
    + now destruct detail.
    + injection Hr as _ <-.
      apply (contains_later _ "Filename ").
      apply (contains_here (String c N)).
    + now destruct detail.
Qed.

(** X7. A handled failure does not block the name: when the target path
    is free and a request under the correct name of a payload is answered
    with an [HTTPException] (a fault the handlers catch, or another
    payload under that name), the cleanup leaves the path free and a later
    request with the payload and without faults is committed. *)
Theorem retry_after_failure_commits (env1 env2 : io_env) (fs : store)
    (B1 B : list byte) (status : Z) (detail : string) :
  fs !! net_path (net_name B) = None ->
  snd (upload env1 fs (Some (net_name B)) B1) = HTTPException status detail ->
  fault_free env2 = true ->
  upload env2 (fst (upload env1 fs (Some (net_name B)) B1))
    (Some (net_name B)) B
  = (<[net_path (net_name B)
       := gzip_file (net_path (net_name B)) (gz_mtime env2) B]> fs,
     JSONResponse 201 "File uploaded successfully").
Proof.
  intros Hfree Hfail Hff.
  assert (fst (upload env1 fs (Some (net_name B)) B1) = fs) as ->.
  { rewrite (upload_table _ _ _ _ _ _ (net_name_valid B)) in Hfail |- *.
    cbv zeta in Hfail |- *. rewrite Hfree in Hfail |- *.
    destruct (open_fault env1); [now apply delete_id|].
    destruct (write_interrupt env1); [discriminate|].
    destruct (write_fault env1); [reflexivity|].
    destruct (read_fault env1); [reflexivity|].
    destruct (gzip_decompress _); [|reflexivity].
    destruct (String.eqb _ _); [discriminate|reflexivity]. }
  apply fault_free_spec in Hff as (Ho & Hw & Hr & Hi).
  rewrite (upload_table _ _ _ _ _ _ (net_name_valid B)). cbv zeta.
  now rewrite Ho, Hfree, Hi, Hw, Hr, gzip_roundtrip, slice_net_name,
    String.eqb_refl.
Qed.

(** Names that pass the validation have no path separator. *)
Lemma valid_no_slash (N : string) :
  Re.re_match NET_PATTERN N = true -> no_slash (net_path N) = true.
Proof.
  intros Hv. apply re_match_spec in Hv as (h & _ & Hh & HN).
  assert (no_slash h = true) as Hs.
  { revert Hh. apply all_chars_impl.
    intros c. now destruct c as [[] [] [] [] [] [] [] []]. }
  unfold no_slash, net_path in *.
  destruct HN as [-> | ->]; rewrite !all_chars_app, Hs; reflexivity.
Qed.

(** X8. The server writes nowhere else: every file of a store that
    requests have built from the empty directory is named [<name>.gz] for
    a name that passed the validation, and has no path separator in it. *)
Theorem reachable_names_valid (fs : store) (p : string) (c : list byte) :
  reachable gzip_file gzip_decompress fs ->
  fs !! p = Some c ->
  (exists N, p = net_path N /\ Re.re_match NET_PATTERN N = true)
  /\ no_slash p = true.
Proof.
  intros Hreach Hp.
  assert (exists N, p = net_path N /\ Re.re_match NET_PATTERN N = true)
    as (N & -> & Hv); [|split; [eauto|now apply valid_no_slash]].
  revert p c Hp. induction Hreach as [|env fs filename B _ IH]; intros p c Hp.
  { now rewrite lookup_empty in Hp. }
  destruct (PyStr.truthy filename
            && Re.re_match NET_PATTERN (default "" filename)) eqn:Hv.
  2: { rewrite (upload_rejected _ _ _ _ _ _ Hv) in Hp. eauto. }
  apply andb_true_iff in Hv as [Ht Hv].
  destruct filename as [N|]; [|discriminate].
  change (default "" (Some N)) with N in Hv.
  rewrite (upload_table _ _ _ _ _ _ Hv) in Hp. cbv zeta in Hp.
  destruct (open_fault env).
  { cbn [fst] in Hp. apply lookup_delete_Some in Hp as [_ Hp]. eauto. }
  destruct (fs !! net_path N); [eauto|].
  destruct (write_interrupt env).
  { cbn [fst] in Hp. apply lookup_insert_Some in Hp as [[<- _]|[_ Hp]]; eauto. }
  destruct (write_fault env); [eauto|].
  destruct (read_fault env); [eauto|].
  destruct (gzip_decompress _); [|eauto].
  destruct (String.eqb _ _); [|eauto].
  cbn [fst] in Hp. apply lookup_insert_Some in Hp as [[<- _]|[_ Hp]]; eauto.
Qed.

End MorePipelineProps.

(** * The helpers of the test suite *)

Lemma hex_value_hexdigit (d : Z) :
  TestApp.hex_value (Sha256.hexdigit d) = Some (d mod 16).
Proof.
  unfold Sha256.hexdigit.
  pose proof (Z.mod_pos_bound d 16 ltac:(lia)) as Hb.
  rewrite <- (Z2Nat.id (d mod 16)) at 2 by lia.
  assert (Z.to_nat (d mod 16) < 16)%nat as H by lia.
  destruct (Z.to_nat (d mod 16)) as [|n]; [reflexivity|].
  do 15 (destruct n as [|n]; [reflexivity|]). lia.
Qed.

Lemma hex_value_lower (c : ascii) :
  PyStr.is_lower_hex c = true ->
  exists d, TestApp.hex_value c = Some d /\ 0 <= d < 16.
Proof.
  destruct c as [[] [] [] [] [] [] [] []]; try discriminate; intros _;
    eexists; (split; [vm_compute; reflexivity|lia]).
Qed.

Lemma hex_of_length (digits : nat) (n : Z) (rest : string) :
  String.length (TestApp.hex_of digits n rest)
  = (digits + String.length rest)%nat.
Proof.
  revert n rest. induction digits as [|d IH]; intros n rest; [reflexivity|].
  cbn [TestApp.hex_of]. rewrite IH. cbn [String.length]. lia.
Qed.

Lemma hex_of_lower (digits : nat) (n : Z) (rest : string) :
  PyStr.all_chars PyStr.is_lower_hex rest = true ->
  PyStr.all_chars PyStr.is_lower_hex (TestApp.hex_of digits n rest) = true.
Proof.
  revert n rest. induction digits as [|d IH]; intros n rest Hr; [exact Hr|].
  cbn [TestApp.hex_of]. apply IH. cbn [PyStr.all_chars].
  now rewrite hexdigit_lower_hex, Hr.
Qed.

(** Reading back what [hex_of] printed. *)
Lemma int16_from_hex_of (digits : nat) (n acc : Z) (rest : string) :
  TestApp.int16_from acc (TestApp.hex_of digits n rest)
  = TestApp.int16_from (acc * 16 ^ Z.of_nat digits
                        + n mod 16 ^ Z.of_nat digits) rest.
Proof.
  revert n acc rest. induction digits as [|d IH]; intros n acc rest.
  - cbn [TestApp.hex_of]. f_equal. change (16 ^ Z.of_nat 0) with 1.
    rewrite Z.mod_1_r. lia.
  - cbn [TestApp.hex_of]. rewrite IH. cbn [TestApp.int16_from].
    rewrite hex_value_hexdigit. f_equal.
    rewrite Nat2Z.inj_succ, Z.pow_succ_r by lia.
    rewrite Z.shiftr_div_pow2 by lia. change (2 ^ 4) with 16.
    rewrite (Z.rem_mul_r n 16 (16 ^ Z.of_nat d)) by lia. ring.
Qed.

Lemma int16_nonempty (s : string) :
  (0 < String.length s)%nat -> TestApp.int16 s = TestApp.int16_from 0 s.
Proof. destruct s; cbn; [lia|reflexivity]. Qed.

(** Twelve digits are enough below [1 << 48]. *)
Lemma format_012x_small (n : Z) :
  0 <= n < 2 ^ 48 -> TestApp.format_012x n = TestApp.hex_of 12 n "".
Proof.
  intros Hn. unfold TestApp.format_012x.
  destruct (Z.ltb_spec n 0) as [|_]; [lia|].
  replace (Nat.max 12 (TestApp.hex_len n)) with 12%nat; [reflexivity|].
  unfold TestApp.hex_len. destruct (Z.eqb_spec n 0) as [|Hz]; [lia|].
  assert (Z.log2 n < 48) by (apply Z.log2_lt_pow2; lia).
  pose proof (Z.log2_nonneg n).
  assert (Z.log2 n / 4 < 12) by (apply Z.div_lt_upper_bound; lia).
  assert (0 <= Z.log2 n / 4) by (apply Z.div_pos; lia).
  lia.
Qed.

(** A string of lowercase hexadecimal digits has a value, below sixteen to
    the power of its length. *)
Lemma int16_from_lower (s : string) (acc : Z) :
  PyStr.all_chars PyStr.is_lower_hex s = true ->
  exists r, TestApp.int16_from acc s
            = Some (acc * 16 ^ Z.of_nat (String.length s) + r)
            /\ 0 <= r < 16 ^ Z.of_nat (String.length s).
Proof.
  revert acc. induction s as [|c s IH]; intros acc Hs.
  - exists 0. cbn. split; [f_equal; lia|lia].
  - cbn [PyStr.all_chars] in Hs. apply andb_true_iff in Hs as [Hc Hs].
    destruct (hex_value_lower c Hc) as (d & Hd & Hdb).
    destruct (IH (16 * acc + d) Hs) as (r & Hr & Hrb).
    cbn [TestApp.int16_from String.length]. rewrite Hd, Hr.
    rewrite Nat2Z.inj_succ, Z.pow_succ_r by lia.
    exists (d * 16 ^ Z.of_nat (String.length s) + r). split; [f_equal; ring|].
    nia.
Qed.

(** X9. Printing and reading hexadecimal: for [0 <= n < 1 << 48],
    [f"{n:012x}"] is twelve lowercase hexadecimal digits and [int(_, 16)]
    of it is [n]. *)
Theorem format_012x_roundtrip (n : Z) :
  0 <= n < 2 ^ 48 ->
  String.length (TestApp.format_012x n) = 12%nat
  /\ PyStr.all_chars PyStr.is_lower_hex (TestApp.format_012x n) = true
  /\ TestApp.int16 (TestApp.format_012x n) = Some n.
Proof.
  intros Hn. rewrite (format_012x_small n Hn).
  split; [apply hex_of_length|]. split; [now apply hex_of_lower|].
  rewrite int16_nonempty by (rewrite hex_of_length; cbn; lia).
  rewrite int16_from_hex_of. cbn [TestApp.int16_from]. f_equal.
  change (16 ^ Z.of_nat 12) with (2 ^ 48). rewrite Z.mod_small by lia. lia.
Qed.

(** The wrong name of a payload: well formed, and not the right one. *)
Lemma wrong_name (data : list byte) :
  exists w,
    TestApp.create_net_file_of data false
      = Some ("nn-" +:+ w +:+ ".nnue", data)
    /\ String.length w = 12%nat
    /\ PyStr.all_chars PyStr.is_lower_hex w = true
    /\ w <> fingerprint data.
Proof.
  destruct (fingerprint_shape data) as [Hl Hh].
  destruct (int16_from_lower _ 0 Hh) as (v & Hv & Hvb).
  rewrite Hl in Hv, Hvb. change (16 ^ Z.of_nat 12) with (2 ^ 48) in Hv, Hvb.
  rewrite Z.mul_0_l, Z.add_0_l in Hv.
  rewrite <- int16_nonempty in Hv by (rewrite Hl; lia).
  unfold TestApp.create_net_file_of. fold (fingerprint data). rewrite Hv.
  cbv zeta. change (Z.shiftl 1 48) with (2 ^ 48).
  assert (0 <= (v + 1) mod 2 ^ 48 < 2 ^ 48) as Hw
    by (apply Z.mod_pos_bound; lia).
  destruct (format_012x_roundtrip _ Hw) as (Hwl & Hwh & Hwi).
  eexists. split; [reflexivity|]. split; [exact Hwl|]. split; [exact Hwh|].
  intros E. rewrite E, Hv in Hwi. injection Hwi as Hwi.
  change (2 ^ 48) with 281474976710656 in *. Z.div_mod_to_equations. lia.
Qed.

(** X10. [create_net_file(correct_hash=False)] never fails and always
    builds a name of the naming contract whose twelve digits are not the
    SHA-256 prefix of the payload: adding one modulo [1 << 48] has no fixed
    point, and printing with [012x] keeps twelve lowercase digits. *)
Theorem create_net_file_wrong_hash (data : list byte) :
  exists w,
    TestApp.create_net_file_of data false
      = Some ("nn-" +:+ w +:+ ".nnue", data)
    /\ w <> fingerprint data
    /\ bit_exact_name ("nn-" +:+ w +:+ ".nnue") = true
    /\ Re.re_match NET_PATTERN ("nn-" +:+ w +:+ ".nnue") = true.
Proof.
  destruct (wrong_name data) as (w & Hc & Hl & Hh & Hne).
  exists w. split; [exact Hc|]. split; [exact Hne|]. split.
  - apply bit_exact_name_spec. eauto.
  - apply re_match_spec. eauto.
Qed.

Section HelpersWithEndpoint.

Variable gzip_file : string -> Z -> list byte -> list byte.
Variable gzip_decompress : list byte -> option (list byte).

Local Abbreviation upload := (create_upload_net gzip_file gzip_decompress).

Hypothesis gzip_roundtrip :
  forall fname mtime data,
    gzip_decompress (gzip_file fname mtime data) = Some data.

(** X11. The two names of [create_net_file] on the endpoint, for any
    payload, without faults and with the target paths free: the name with
    the right hash is committed, the name with the wrong hash is answered
    500 "Invalid hash for uploaded file <name>" and leaves the store as it
    was. *)
Theorem create_net_file_on_endpoint (env : io_env) (fs : store)
    (data : list byte) (good bad : string) :
  fault_free env = true ->
  TestApp.create_net_file_of data true = Some (good, data) ->
  TestApp.create_net_file_of data false = Some (bad, data) ->
  fs !! net_path good = None ->
  fs !! net_path bad = None ->
  upload env fs (Some good) data
    = (<[net_path good := gzip_file (net_path good) (gz_mtime env) data]> fs,
       JSONResponse 201 "File uploaded successfully")
  /\ upload env fs (Some bad) data
     = (fs, HTTPException 500 ("Invalid hash for uploaded file " +:+ bad)).
Proof.
  intros Hff Hgood Hbad Hfg Hfb.
  apply fault_free_spec in Hff as (Ho & Hw & Hr & Hi).
  assert (good = net_name data) as -> by (injection Hgood as <-; reflexivity).
  destruct (wrong_name data) as (w & Hc & Hl & Hh & Hne).
  rewrite Hc in Hbad.
  assert (bad = "nn-" +:+ w +:+ ".nnue") as ->
    by (injection Hbad as <-; reflexivity).
  split.
  - rewrite (upload_table _ _ _ _ _ _ (net_name_valid data)). cbv zeta.
    now rewrite Ho, Hfg, Hi, Hw, Hr, gzip_roundtrip, slice_net_name,
      String.eqb_refl.
  - assert (Re.re_match NET_PATTERN ("nn-" +:+ w +:+ ".nnue") = true) as Hv
      by (apply re_match_spec; eauto).
    rewrite (upload_table _ _ _ _ _ _ Hv). cbv zeta.
    rewrite Ho, Hfb, Hi, Hw, Hr, gzip_roundtrip, (slice_fingerprint _ _ Hl).
    destruct (String.eqb_spec (fingerprint data) w) as [E|_]; [|reflexivity].
    now destruct Hne.
Qed.

(** X12. [ensure_clean_nn_file] makes room: it removes the file of the
    name and nothing else, and a request without faults for a payload
    under its correct name is then committed whatever the store held. *)
Theorem ensure_clean_then_commit (env : io_env) (fs : store)
    (B : list byte) :
  fault_free env = true ->
  let cleaned := TestApp.ensure_clean_nn_file fs (net_name B) in
  snd cleaned = net_path (net_name B)
  /\ fst cleaned = delete (net_path (net_name B)) fs
  /\ upload env (fst cleaned) (Some (net_name B)) B
     = (<[net_path (net_name B)
          := gzip_file (net_path (net_name B)) (gz_mtime env) B]>
          (fst cleaned),
        JSONResponse 201 "File uploaded successfully").
Proof.
  intros Hff cleaned.
  assert (snd cleaned = net_path (net_name B)
          /\ fst cleaned = delete (net_path (net_name B)) fs) as [Hp Hs].
  { subst cleaned. unfold TestApp.ensure_clean_nn_file, unlink.
    destruct (fs !! net_path (net_name B)) eqn:E.
    - split; reflexivity.
    - split; [reflexivity|]. cbn [fst]. now rewrite delete_id. }
  split; [exact Hp|]. split; [exact Hs|].
  apply fault_free_spec in Hff as (Ho & Hw & Hr & Hi).
  rewrite (upload_table _ _ _ _ _ _ (net_name_valid B)). cbv zeta.
  rewrite Hs, Ho, lookup_delete_eq, Hi, Hw, Hr, gzip_roundtrip, slice_net_name,
    String.eqb_refl.
  reflexivity.
Qed.

End HelpersWithEndpoint.

(** ** The further properties on the fixtures *)

Lemma other_paths_untouched_witness :
  fst (upload_gz quiet_env other_store (Some test_filename) net_data)
    !! "other.gz"
  = other_store !! "other.gz".
Proof.
  apply (other_paths_untouched Gz.gzip_file Gz.gzip_decompress quiet_env
           other_store (Some test_filename) net_data "other.gz").
  vm_compute. discriminate.
Defined.

Lemma committed_only_if_witness :
  exists N,
    Some test_filename = Some N
    /\ Re.re_match NET_PATTERN N = true
    /\ (∅ : store) !! net_path N = None
    /\ fault_free quiet_env = true
    /\ fingerprint net_data = PyStr.slice 3 15 N
    /\ fst (upload_gz quiet_env ∅ (Some test_filename) net_data)
       = <[net_path N
           := Gz.gzip_file (net_path N) (gz_mtime quiet_env) net_data]> ∅.
Proof.
  apply (committed_only_if Gz.gzip_file Gz.gzip_decompress gz_roundtrip
           quiet_env ∅ (Some test_filename) net_data).
  vm_compute. reflexivity.
Defined.

Lemma conflict_iff_occupied_witness :
  snd (upload_gz quiet_env occupied_store (Some test_filename) net_data)
    = HTTPException 409 ("File " +:+ test_filename +:+ " already uploaded")
  <-> open_fault quiet_env = false
      /\ is_Some (occupied_store !! net_path test_filename).
Proof.
  apply (conflict_iff_occupied Gz.gzip_file Gz.gzip_decompress quiet_env
           occupied_store test_filename net_data).
  vm_compute. reflexivity.
Defined.

Lemma fault_free_store_grows_witness :
  occupied_store
  ⊆ fst (upload_gz quiet_env occupied_store (Some test_filename) net_data).
Proof.
  apply (fault_free_store_grows Gz.gzip_file Gz.gzip_decompress quiet_env
           occupied_store (Some test_filename) net_data).
  reflexivity.
Defined.

Lemma failure_detail_names_file_witness :
  PyStr.contains (default "" (Some "invalid_filename.pattern"))
    "Filename invalid_filename.pattern does not match expected pattern (nn-[0-9a-f]{12}.nnue)"
  = true.
Proof.
  apply (failure_detail_names_file Gz.gzip_file Gz.gzip_decompress quiet_env
           ∅ (Some "invalid_filename.pattern") net_data 400).
  vm_compute. reflexivity.
Defined.

Lemma retry_after_failure_commits_witness :
  upload_gz quiet_env
    (fst (upload_gz full_disk_env ∅ (Some (net_name net_data)) net_data))
    (Some (net_name net_data)) net_data
  = (<[net_path (net_name net_data)
       := Gz.gzip_file (net_path (net_name net_data)) (gz_mtime quiet_env)
            net_data]> ∅,
     JSONResponse 201 "File uploaded successfully").
Proof.
  apply (retry_after_failure_commits Gz.gzip_file Gz.gzip_decompress
           gz_roundtrip full_disk_env quiet_env ∅ net_data net_data 500
           "Failed to write file nn-51cd90b4b052.nnue").
  - vm_compute. reflexivity.
  - vm_compute. reflexivity.
  - reflexivity.
Defined.

Lemma reachable_names_valid_witness :
  (exists N, net_path test_filename = net_path N
             /\ Re.re_match NET_PATTERN N = true)
  /\ no_slash (net_path test_filename) = true.
Proof.
  apply (reachable_names_valid Gz.gzip_file Gz.gzip_decompress
           (fst (upload_gz quiet_env ∅ (Some test_filename) net_data))
           (net_path test_filename)
           (Gz.gzip_file (net_path test_filename) 1700000000 net_data)).
  - apply reach_upload, reach_empty.
  - vm_compute. reflexivity.
Defined.

Lemma format_012x_roundtrip_witness :
  String.length (TestApp.format_012x 0x51cd90b4b053) = 12%nat
  /\ PyStr.all_chars PyStr.is_lower_hex (TestApp.format_012x 0x51cd90b4b053)
     = true
  /\ TestApp.int16 (TestApp.format_012x 0x51cd90b4b053) = Some 0x51cd90b4b053.
Proof.
  apply (format_012x_roundtrip 0x51cd90b4b053).
  split; [discriminate|reflexivity].
Defined.

Lemma create_net_file_on_endpoint_witness :
  upload_gz quiet_env ∅ (Some test_filename) net_data
    = (<[net_path test_filename
         := Gz.gzip_file (net_path test_filename) (gz_mtime quiet_env)
              net_data]> ∅,
       JSONResponse 201 "File uploaded successfully")
  /\ upload_gz quiet_env ∅ (Some "nn-51cd90b4b053.nnue") net_data
     = (∅, HTTPException 500
             ("Invalid hash for uploaded file " +:+ "nn-51cd90b4b053.nnue")).
Proof.
  apply (create_net_file_on_endpoint Gz.gzip_file Gz.gzip_decompress
           gz_roundtrip quiet_env ∅ net_data test_filename
           "nn-51cd90b4b053.nnue").
  - reflexivity.
  - vm_compute. reflexivity.
  - vm_compute. reflexivity.
  - vm_compute. reflexivity.
  - vm_compute. reflexivity.
Defined.

Lemma ensure_clean_then_commit_witness :
  let cleaned :=
    TestApp.ensure_clean_nn_file occupied_store (net_name net_data) in
  snd cleaned = net_path (net_name net_data)
  /\ fst cleaned = delete (net_path (net_name net_data)) occupied_store
  /\ upload_gz quiet_env (fst cleaned) (Some (net_name net_data)) net_data
     = (<[net_path (net_name net_data)
          := Gz.gzip_file (net_path (net_name net_data)) (gz_mtime quiet_env)
               net_data]> (fst cleaned),
        JSONResponse 201 "File uploaded successfully").
Proof.
  apply (ensure_clean_then_commit Gz.gzip_file Gz.gzip_decompress
           gz_roundtrip quiet_env occupied_store net_data).
  reflexivity.
Defined.

Lemma failed_open_removes_stored_file_witness :
  upload_gz failing_open_env occupied_store (Some test_filename) net_data
  = (delete (net_path test_filename) occupied_store,
     HTTPException 500 ("Failed to write file " +:+ test_filename)).
Proof.
  apply (failed_open_removes_stored_file Gz.gzip_file Gz.gzip_decompress
           failing_open_env occupied_store test_filename net_data).
  - vm_compute. reflexivity.
  - reflexivity.
Defined.

Lemma served_verified_witness :
  store_verified Gz.gzip_decompress
    (fst (upload_gz quiet_env ∅ (Some test_filename) net_data)).
Proof.
  apply (served_verified Gz.gzip_file Gz.gzip_decompress).
  apply served_upload; [apply served_empty|].
  vm_compute. reflexivity.
Defined.

Lemma response_classifies_witness :
  exists o,
    snd (upload_gz quiet_env occupied_store (Some test_filename) net_data)
    = response_of o (default "" (Some test_filename))
    /\ (forall o',
          snd (upload_gz quiet_env occupied_store (Some test_filename)
                 net_data)
          = response_of o' (default "" (Some test_filename))
          -> o' = o)
    /\ exists status detail,
         response_of o (default "" (Some test_filename)) =
           (if is_failure o then HTTPException status detail
            else JSONResponse status detail)
         /\ (status = 201 \/ status = 400 \/ status = 409 \/ status = 500).
Proof.
  apply (response_classifies Gz.gzip_file Gz.gzip_decompress quiet_env
           occupied_store (Some test_filename) net_data).
  vm_compute. reflexivity.
Defined.

Lemma validation_exact_unless_newline_witness :
  Re.re_match NET_PATTERN test_filename = bit_exact_name test_filename.
Proof.
  apply (validation_exact_unless_newline test_filename).
  intros s0 H. unfold test_filename in H.
  do 20 (destruct s0 as [|? s0]; [discriminate H|];
         cbn [String.append] in H; injection H as _ H).
  destruct s0; discriminate H.
Defined.

(** * Where the code departs from the specification *)

(** C7, as the claim words it, fails: for the name of the test
    [test_upload_invalid_filename_pattern] the detail of the 400 contains
    neither the pattern of line 34 verbatim nor the spelling of the
    specification, which both have the backslash before the dot. *)
Lemma pattern_source_not_echoed :
  snd (upload_gz quiet_env ∅ (Some "invalid_filename.pattern") net_data)
  = HTTPException 400
      "Filename invalid_filename.pattern does not match expected pattern (nn-[0-9a-f]{12}.nnue)"
  /\ PyStr.contains NET_PATTERN_TEXT
       "Filename invalid_filename.pattern does not match expected pattern (nn-[0-9a-f]{12}.nnue)"
     = false
  /\ PyStr.contains NET_PATTERN_SPEC_TEXT
       "Filename invalid_filename.pattern does not match expected pattern (nn-[0-9a-f]{12}.nnue)"
     = false.
Proof. vm_compute. repeat split. Qed.



(** C3 (the code departs from the claim). The upload of the payload of the
    test under its correct name is cancelled at [await upload.read()]: the
    handlers are [except Exception], none runs, and the file that
    [gzip.open] created stays, holding an empty gzip stream.  The next
    request under that name, without any fault, ends in the failure
    AlreadyExists (409), and the target path is neither absent nor a
    verified artifact: the file decompresses to the empty payload, whose
    SHA-256 prefix is not the one of the name, and no request was ever
    committed. *)
Theorem cancelled_upload_leaves_unverified_file :
  let p := net_path test_filename in
  let closed := Gz.gzip_file p 1700000000 [] in
  let first := upload_gz cancelled_env ∅ (Some test_filename) net_data in
  let second :=
    upload_gz quiet_env (fst first) (Some test_filename) net_data in
  snd first = Unhandled Interrupt
  /\ fst first !! p = Some closed
  /\ snd second = response_of AlreadyExists test_filename
  /\ is_failure AlreadyExists = true
  /\ fst second !! p = Some closed
  /\ Gz.gzip_decompress closed = Some []
  /\ ~ verified_artifact Gz.gzip_decompress test_filename closed.
Proof.
  cbv zeta.
  assert (Gz.gzip_decompress
            (Gz.gzip_file (net_path test_filename) 1700000000 [])
          = Some []) as Hdec by (vm_compute; reflexivity).
  split; [vm_compute; reflexivity|].
  split; [vm_compute; reflexivity|].
  split; [vm_compute; reflexivity|].
  split; [reflexivity|].
  split; [vm_compute; reflexivity|].
  split; [exact Hdec|].
  intros (d & Hd & Hf). rewrite Hdec in Hd. injection Hd as <-.
  vm_compute in Hf. discriminate Hf.
Qed.
